(** * Small-Inventory-Tracking: the backend's auth gate and item service

    A shallow embedding of [backend.js]: the JWT middleware
    [authenticateToken], the two public auth routes and the four protected
    item routes, over an in-memory model of the two Mongoose collections.

    What the file does not own (bcryptjs, jsonwebtoken, the ObjectId cast,
    the conversions between JavaScript numbers and strings) is gathered in
    one interface, [Platform]; the handlers are written against it and the
    theorems hold for every implementation of it. *)

From Stdlib Require Import String Ascii List ZArith NArith Bool Lia.
From Stdlib Require Import DecimalString DecimalN DecimalZ.
Import ListNotations.

Local Open Scope string_scope.
Local Open Scope Z_scope.

(** ** JavaScript values carried by a JSON body

    A field of [req.body] is absent ([undefined]) or a JSON scalar; arrays
    and nested objects are left out.  Numbers are the integers (an item's
    quantity is an integer). *)

Inductive value : Type :=
| VUndefined
| VNull
| VBool (b : bool)
| VNum (n : Z)
| VStr (s : string).

(** JavaScript truthiness (ToBoolean). *)
Definition truthy (v : value) : bool :=
  match v with
  | VUndefined | VNull => false
  | VBool b => b
  | VNum n => negb (n =? 0)
  | VStr s => negb (s =? "")%string
  end.

(** [a || b] *)
Definition js_or (a b : value) : value := if truthy a then a else b.

(** What a [String] path can hold once cast: nothing, [null] or a
    string. *)
Definition is_text (v : value) : bool :=
  match v with
  | VUndefined | VNull | VStr _ => true
  | VBool _ | VNum _ => false
  end.

(** [String.prototype.split] with a one-character separator. *)
Fixpoint split (sep : ascii) (s : string) : list string :=
  match s with
  | EmptyString => [EmptyString]
  | String c r =>
      if Ascii.eqb c sep then EmptyString :: split sep r
      else match split sep r with
           | w :: ws => String c w :: ws
           | [] => [String c EmptyString]
           end
  end.

(** A string with no occurrence of [c]. *)
Fixpoint lacks (c : ascii) (s : string) : bool :=
  match s with
  | EmptyString => true
  | String a r => negb (Ascii.eqb a c) && lacks c r
  end.

Definition space : ascii := " "%char.

(** ** Identifiers, clock, errors *)

(** A MongoDB ObjectId, kept as the 96-bit number it denotes. *)
Definition ObjectId : Type := N.
Bind Scope N_scope with ObjectId.

(** What a thrown (or rejected) error is; the handlers only ever read its
    [message], which the model keeps as the error itself. *)
Inductive exn : Type :=
| ValidationError (model : string) (paths : list string)
| CastError (path : string) (v : string)
| DuplicateKey (index : string)
| DocumentNotFound
| IllegalArguments
| StorageFault (msg : string).

(** The identity a token carries: [{ user: { id, username } }]. *)
Record Payload : Type := mkPayload {
  payload_id : ObjectId;
  payload_username : string
}.

(** A decoded token: the payload with the [iat] and [exp] stamps. *)
Record Claims : Type := mkClaims {
  claims_user : Payload;
  iat : Z;
  exp : Z
}.

(** ** The libraries the backend calls *)

Class Platform : Type := {
  (** [bcrypt.hash(s, salt)] on two strings *)
  bcrypt_hash : string -> string -> string;
  (** [bcrypt.compare(s, hash)] on two strings *)
  bcrypt_compare : string -> string -> bool;
  (** [jwt.sign(payload, secret, { expiresIn })] at a clock reading, seconds *)
  jwt_sign : Payload -> string -> Z -> Z -> string;
  (** [jwt.verify(token, secret)] at a clock reading, seconds *)
  jwt_verify : string -> string -> Z -> option Claims;
  (** Mongoose's cast of a string to an ObjectId; [None] is a CastError *)
  castObjectId : string -> option ObjectId;
  (** [Number.prototype.toString] *)
  numberToString : Z -> string;
  (** [Number(s)] on a string; [None] is NaN *)
  stringToNumber : string -> option Z
}.

(** The laws of the two credential libraries, used where a theorem needs
    them. *)
Definition bcrypt_sound (P : Platform) : Prop :=
  forall s salt,
    bcrypt_compare s (bcrypt_hash s salt) = true /\
    bcrypt_hash s salt <> ""%string.

Definition jwt_sound (P : Platform) : Prop :=
  forall p secret ttl t t',
    jwt_verify (jwt_sign p secret ttl t) secret t' =
      if t' <? t + ttl then Some (mkClaims p t (t + ttl)) else None.

(** ** Configuration *)

Definition JWT_SECRET : string := "your-jwt-secret-key".

(** [expiresIn: '1h'], in seconds. *)
Definition expiresIn : Z := 3600.

(** ** Documents and collections *)

Module UserSchema.
Record doc : Type := mk {
  _id : ObjectId;
  username : string;
  password : string
}.
End UserSchema.

Module ItemSchema.
Record doc : Type := mk {
  _id : ObjectId;
  name : string;
  quantity : Z;
  description : value;
  lastUpdated : Z
}.
End ItemSchema.

(** The database: two collections, each in insertion order. *)
Record Db : Type := mkDb {
  users : list UserSchema.doc;
  items : list ItemSchema.doc
}.

Definition emptyDb : Db := mkDb [] [].

(** What a request finds outside the program: the wall clock
    ([Date.now()], milliseconds), the salt [bcrypt.genSalt] draws, the
    ObjectId a [new] document is given, and whether the store answers:
    [fault = Some m] makes every store operation reject with message
    [m]. *)
Record Env : Type := mkEnv {
  now : Z;
  salt : string;
  new_id : ObjectId;
  fault : option string
}.

(** The clock jsonwebtoken reads: whole seconds. *)
Definition clock (env : Env) : Z := now env / 1000.

(** ** Errors as values *)

Definition M (A : Type) : Type := (exn + A)%type.

Definition ret {A} (a : A) : M A := inr a.
Definition throw {A} (e : exn) : M A := inl e.
Definition bind {A B} (m : M A) (k : A -> M B) : M B :=
  match m with
  | inl e => inl e
  | inr a => k a
  end.

Declare Scope await_scope.
Delimit Scope await_scope with await.
Notation "x <- m ;; k" := (bind m (fun x => k))
  (at level 61, m at next level, right associativity) : await_scope.
Local Open Scope await_scope.

(** Every store operation first needs the store to answer. *)
Definition store (env : Env) : M unit :=
  match fault env with
  | Some m => throw (StorageFault m)
  | None => ret tt
  end.

(** ** Mongoose: casting and validation *)

Section Mongoose.
Context {P : Platform}.

(** The [String] schema type's cast of a scalar: [undefined] and [null]
    pass, every other scalar is stringified. *)
Definition castString (v : value) : value :=
  match v with
  | VUndefined => VUndefined
  | VNull => VNull
  | VStr s => VStr s
  | VNum n => VStr (numberToString n)
  | VBool b => VStr (if b then "true" else "false")
  end.

(** The [Number] schema type's cast: the empty string is [null], strings
    and booleans go through [Number(_)], and NaN is a cast failure. *)
Definition castNumber (v : value) : option value :=
  match v with
  | VUndefined => Some VUndefined
  | VNull => Some VNull
  | VNum n => Some (VNum n)
  | VBool b => Some (VNum (if b then 1 else 0))
  | VStr s =>
      if (s =? "")%string then Some VNull
      else option_map VNum (stringToNumber s)
  end.

(** [default:] fills a path that is [undefined] when the document is
    built. *)
Definition withDefault (d : value) (v : option value) : option value :=
  match v with
  | Some VUndefined => Some d
  | _ => v
  end.

(** [required: true] on a [String] path: a string of positive length. *)
Definition requiredString (v : value) : option string :=
  match v with
  | VStr s => if (s =? "")%string then None else Some s
  | _ => None
  end.

(** [required: true] on a [Number] path: a number; a failed cast fails
    validation too. *)
Definition requiredNumber (v : option value) : option Z :=
  match v with
  | Some (VNum n) => Some n
  | _ => None
  end.

(** Validation of a User document on [save]. *)
Definition validateUser (id : ObjectId) (username password : value)
  : M UserSchema.doc :=
  match requiredString username, requiredString password with
  | Some u, Some p => ret (UserSchema.mk id u p)
  | None, Some _ => throw (ValidationError "User" ["username"])
  | Some _, None => throw (ValidationError "User" ["password"])
  | None, None => throw (ValidationError "User" ["username"; "password"])
  end.

(** Validation of an Item document on [save]: [name] and [quantity] are
    required, [description] is not. *)
Definition validateItem (id : ObjectId) (name : value)
    (quantity : option value) (description : value) (lastUpdated : Z)
  : M ItemSchema.doc :=
  match requiredString name, requiredNumber quantity with
  | Some s, Some q => ret (ItemSchema.mk id s q description lastUpdated)
  | None, Some _ => throw (ValidationError "Item" ["name"])
  | Some _, None => throw (ValidationError "Item" ["quantity"])
  | None, None => throw (ValidationError "Item" ["name"; "quantity"])
  end.
End Mongoose.

(** ** The two models *)

Module User.
Section Model.
Context {P : Platform}.

(** [User.findOne({ username })]: the first user of that name. *)
Definition findOne (env : Env) (db : Db) (username : string)
  : M (option UserSchema.doc) :=
  _ <- store env ;;
  ret (find (fun u => (UserSchema.username u =? username)%string)
            (users db)).

(** [new User({ username, password }).save()]: validate, then insert
    under the unique indexes on [_id] and [username]. *)
Definition save (env : Env) (db : Db) (username password : value)
  : M (UserSchema.doc * Db) :=
  u <- validateUser (new_id env) (castString username)
                    (castString password) ;;
  _ <- store env ;;
  if existsb (fun x => (UserSchema._id x =? UserSchema._id u)%N)
             (users db)
  then throw (DuplicateKey "_id_")
  else if existsb
            (fun x => (UserSchema.username x =? UserSchema.username u)%string)
            (users db)
  then throw (DuplicateKey "username_1")
  else ret (u, mkDb (users db ++ [u]) (items db)).
End Model.
End User.

Module Item.
Section Model.
Context {P : Platform}.

Definition has_id (id : ObjectId) (i : ItemSchema.doc) : bool :=
  (ItemSchema._id i =? id)%N.

(** [Item.find()]: the whole collection. *)
Definition find (env : Env) (db : Db) : M (list ItemSchema.doc) :=
  _ <- store env ;;
  ret (items db).

(** [Item.findById(id)]: the id is cast first, and a string that is no
    ObjectId is a CastError, not a miss. *)
Definition findById (env : Env) (db : Db) (id : string)
  : M (option ItemSchema.doc) :=
  match castObjectId id with
  | None => throw (CastError "_id" id)
  | Some oid =>
      _ <- store env ;;
      ret (List.find (has_id oid) (items db))
  end.

(** [new Item({ name, quantity, description })]: the paths are cast,
    [quantity] and [lastUpdated] take their defaults. *)
Definition create (env : Env) (name quantity description : value)
  : M ItemSchema.doc :=
  validateItem (new_id env)
               (castString name)
               (withDefault (VNum 0) (castNumber quantity))
               (castString description)
               (now env).

(** [save()] of a new document: validate, then insert under the unique
    index on [_id]. *)
Definition insert (env : Env) (db : Db) (doc : M ItemSchema.doc)
  : M (ItemSchema.doc * Db) :=
  i <- doc ;;
  _ <- store env ;;
  if existsb (has_id (ItemSchema._id i)) (items db)
  then throw (DuplicateKey "_id_")
  else ret (i, mkDb (users db) (items db ++ [i])).

(** Replace the first document of the given id. *)
Fixpoint replaceOne (i : ItemSchema.doc) (l : list ItemSchema.doc)
  : option (list ItemSchema.doc) :=
  match l with
  | [] => None
  | x :: r =>
      if has_id (ItemSchema._id i) x then Some (i :: r)
      else option_map (cons x) (replaceOne i r)
  end.

(** [save()] of a loaded document: validate, then write it back. *)
Definition update (env : Env) (db : Db) (doc : M ItemSchema.doc)
  : M (ItemSchema.doc * Db) :=
  i <- doc ;;
  _ <- store env ;;
  match replaceOne i (items db) with
  | None => throw DocumentNotFound
  | Some l => ret (i, mkDb (users db) l)
  end.

(** Remove the first document of the given id. *)
Fixpoint removeOne (id : ObjectId) (l : list ItemSchema.doc)
  : list ItemSchema.doc :=
  match l with
  | [] => []
  | x :: r => if has_id id x then r else x :: removeOne id r
  end.

(** [item.deleteOne()] *)
Definition deleteOne (env : Env) (db : Db) (i : ItemSchema.doc) : M Db :=
  _ <- store env ;;
  ret (mkDb (users db) (removeOne (ItemSchema._id i) (items db))).
End Model.
End Item.

(** ** Requests and responses *)

(** The JSON a handler answers with. *)
Inductive Json : Type :=
| JMessage (message : string)
| JError (message : string) (error : exn)
| JToken (token : string)
| JItem (item : ItemSchema.doc)
| JItems (items : list ItemSchema.doc).

Record Response : Type := mkResponse {
  status : Z;
  json : Json
}.

(** The body of the two auth routes.  [username] is taken as the string the
    credential store keys on; [password] is whatever the JSON held. *)
Record AuthBody : Type := mkAuthBody {
  username : string;
  password : value
}.

(** The body of the item routes: [const { name, quantity, description }]. *)
Record ItemBody : Type := mkItemBody {
  name : value;
  quantity : value;
  description : value
}.

(** A request to a protected route: [req.headers['authorization']],
    [req.params.id], [req.body] and, once the gate has passed, [req.user]. *)
Record Request : Type := mkRequest {
  authorization : option string;
  params_id : string;
  body : ItemBody;
  user : option Claims
}.

(** A middleware either answers or hands the request on. *)
Inductive Gate : Type :=
| Responded (r : Response)
| Next (req : Request).

Definition serverError (e : exn) : Response :=
  mkResponse 500 (JError "Server error" e).

(** [try { ... } catch (err) { res.status(500).json(...) }]: every handler
    writes to the store in its last step, so a caught error leaves the
    store as it was. *)
Definition try_catch (db : Db) (body : M (Response * Db)) : Response * Db :=
  match body with
  | inr r => r
  | inl e => (serverError e, db)
  end.

Section Routes.
Context {P : Platform}.

(** bcryptjs rejects with "Illegal arguments" unless it is given
    strings. *)
Definition hash (s : value) (salt : string) : M string :=
  match s with
  | VStr p => ret (bcrypt_hash p salt)
  | _ => throw IllegalArguments
  end.

Definition compare (s : value) (h : string) : M bool :=
  match s with
  | VStr p => ret (bcrypt_compare p h)
  | _ => throw IllegalArguments
  end.

(** [authHeader && authHeader.split(' ')[1]]: [undefined] for a missing
    header, the header itself when it is the empty string, the second
    piece otherwise ([undefined] when there is none). *)
Definition bearer (authHeader : option string) : option string :=
  match authHeader with
  | None => None
  | Some h => if (h =? "")%string then Some h else nth_error (split space h) 1
  end.

Definition authenticateToken (env : Env) (req : Request) : Gate :=
  let authHeader := authorization req in
  let token := bearer authHeader in
  match token with
  | None => Responded (mkResponse 401 (JMessage "No token provided"))
  | Some token =>
      match jwt_verify token JWT_SECRET (clock env) with
      | None => Responded (mkResponse 403 (JMessage "Token is invalid"))
      | Some user =>
          Next (mkRequest (authorization req) (params_id req) (body req)
                          (Some user))
      end
  end.

(** [POST /api/auth/register]: the [try] block, then the handler. *)
Definition registerBody (env : Env) (body : AuthBody) (db : Db)
  : M (Response * Db) :=
  user <- User.findOne env db (username body) ;;
  match user with
  | Some _ => ret (mkResponse 400 (JMessage "User already exists"), db)
  | None =>
      hashedPassword <- hash (password body) (salt env) ;;
      saved <- User.save env db (VStr (username body))
                         (VStr hashedPassword) ;;
      ret (mkResponse 201 (JMessage "User registered successfully"),
           snd saved)
  end.

Definition register (env : Env) (body : AuthBody) (db : Db)
  : Response * Db :=
  try_catch db (registerBody env body db).

(** [POST /api/auth/login] *)
Definition loginBody (env : Env) (body : AuthBody) (db : Db)
  : M (Response * Db) :=
  user <- User.findOne env db (username body) ;;
  match user with
  | None => ret (mkResponse 400 (JMessage "Invalid credentials"), db)
  | Some user =>
      isMatch <- compare (password body) (UserSchema.password user) ;;
      if negb isMatch
      then ret (mkResponse 400 (JMessage "Invalid credentials"), db)
      else
        let payload := mkPayload (UserSchema._id user)
                                 (UserSchema.username user) in
        let token := jwt_sign payload JWT_SECRET expiresIn (clock env) in
        ret (mkResponse 200 (JToken token), db)
  end.

Definition login (env : Env) (body : AuthBody) (db : Db)
  : Response * Db :=
  try_catch db (loginBody env body db).

(** [GET /api/items] *)
Definition listItemsBody (env : Env) (req : Request) (db : Db)
  : M (Response * Db) :=
  items <- Item.find env db ;;
  ret (mkResponse 200 (JItems items), db).

Definition listItems (env : Env) (req : Request) (db : Db)
  : Response * Db :=
  try_catch db (listItemsBody env req db).

(** [POST /api/items] *)
Definition createItemBody (env : Env) (req : Request) (db : Db)
  : M (Response * Db) :=
  let newItem := Item.create env (name (body req)) (quantity (body req))
                             (description (body req)) in
  saved <- Item.insert env db newItem ;;
  ret (mkResponse 201 (JItem (fst saved)), snd saved).

Definition createItem (env : Env) (req : Request) (db : Db)
  : Response * Db :=
  try_catch db (createItemBody env req db).

(** The four assignments of the update route, each through the path's
    cast: [name || item.name], [quantity !== undefined ? quantity :
    item.quantity], [description || item.description], [Date.now()]. *)
Definition assign (env : Env) (b : ItemBody) (item : ItemSchema.doc)
  : M ItemSchema.doc :=
  let name' := js_or (name b) (VStr (ItemSchema.name item)) in
  let quantity' :=
    match quantity b with
    | VUndefined => VNum (ItemSchema.quantity item)
    | q => q
    end in
  let description' := js_or (description b) (ItemSchema.description item) in
  validateItem (ItemSchema._id item) (castString name')
               (castNumber quantity') (castString description') (now env).

(** [PUT /api/items/:id] *)
Definition updateItemBody (env : Env) (req : Request) (db : Db)
  : M (Response * Db) :=
  item <- Item.findById env db (params_id req) ;;
  match item with
  | None => ret (mkResponse 404 (JMessage "Item not found"), db)
  | Some item =>
      saved <- Item.update env db (assign env (body req) item) ;;
      ret (mkResponse 200 (JItem (fst saved)), snd saved)
  end.

Definition updateItem (env : Env) (req : Request) (db : Db)
  : Response * Db :=
  try_catch db (updateItemBody env req db).

(** [DELETE /api/items/:id] *)
Definition deleteItemBody (env : Env) (req : Request) (db : Db)
  : M (Response * Db) :=
  item <- Item.findById env db (params_id req) ;;
  match item with
  | None => ret (mkResponse 404 (JMessage "Item not found"), db)
  | Some item =>
      db' <- Item.deleteOne env db item ;;
      ret (mkResponse 200 (JMessage "Item removed successfully"), db')
  end.

Definition deleteItem (env : Env) (req : Request) (db : Db)
  : Response * Db :=
  try_catch db (deleteItemBody env req db).

(** The protected operations and their routes: each is registered with
    [authenticateToken] in front of its handler. *)
Inductive ItemOp : Type := ListItems | CreateItem | UpdateItem | DeleteItem.

Definition handler (op : ItemOp) : Env -> Request -> Db -> Response * Db :=
  match op with
  | ListItems => listItems
  | CreateItem => createItem
  | UpdateItem => updateItem
  | DeleteItem => deleteItem
  end.

Definition handlerBody (op : ItemOp)
  : Env -> Request -> Db -> M (Response * Db) :=
  match op with
  | ListItems => listItemsBody
  | CreateItem => createItemBody
  | UpdateItem => updateItemBody
  | DeleteItem => deleteItemBody
  end.

Definition route (op : ItemOp) (env : Env) (req : Request) (db : Db)
  : Response * Db :=
  match authenticateToken env req with
  | Responded r => (r, db)
  | Next req' => handler op env req' db
  end.

(** The [message] a result carries, if it has one. *)
Definition message (j : Json) : option string :=
  match j with
  | JMessage m => Some m
  | JError m _ => Some m
  | JToken _ | JItem _ | JItems _ => None
  end.

(** The two shapes an answer takes: a success (200 or 201), or a failure,
    which has one of the five failure statuses as its kind and a
    message. *)
Definition succeeded (r : Response) : bool :=
  (status r =? 200) || (status r =? 201).

Definition failed (r : Response) : bool :=
  existsb (Z.eqb (status r)) [400; 401; 403; 404; 500] &&
  match message (json r) with
  | Some _ => true
  | None => false
  end.

(** Every call the API accepts. *)
Inductive Call : Type :=
| Register (b : AuthBody)
| Login (b : AuthBody)
| Protected (op : ItemOp) (req : Request).

Definition serve (env : Env) (c : Call) (db : Db) : Response * Db :=
  match c with
  | Register b => register env b db
  | Login b => login env b db
  | Protected op req => route op env req db
  end.

(** The [try] block a call runs, and the handler around it, once the
    gate (if any) has let the request through. *)
Definition tryBlock (env : Env) (c : Call) (db : Db) : M (Response * Db) :=
  match c with
  | Register b => registerBody env b db
  | Login b => loginBody env b db
  | Protected op req => handlerBody op env req db
  end.

Definition respond (env : Env) (c : Call) (db : Db) : Response * Db :=
  try_catch db (tryBlock env c db).

(** The databases the API can bring about, from the empty one. *)
Inductive reachable : Db -> Prop :=
| reachable_empty : reachable emptyDb
| reachable_serve env c db :
    reachable db -> reachable (snd (serve env c db)).
End Routes.

(** ** What the store keeps true *)

(** A stored item passed its schema's checks: a name of positive length,
    and a description that went through the [String] cast. *)
Definition valid_item (i : ItemSchema.doc) : Prop :=
  ItemSchema.name i <> ""%string /\
  is_text (ItemSchema.description i) = true.

Definition valid_user (u : UserSchema.doc) : Prop :=
  UserSchema.username u <> ""%string /\
  UserSchema.password u <> ""%string.

(** Ids are unique in each collection, usernames are unique, and every
    stored document is valid. *)
Record valid_db (db : Db) : Prop := mkValid {
  item_ids_unique : NoDup (map ItemSchema._id (items db));
  user_ids_unique : NoDup (map UserSchema._id (users db));
  usernames_unique : NoDup (map UserSchema.username (users db));
  items_valid : Forall valid_item (items db);
  users_valid : Forall valid_user (users db)
}.

(** The stored item of a given id, if any. *)
Definition itemOf (db : Db) (id : ObjectId) : option ItemSchema.doc :=
  List.find (Item.has_id id) (items db).

(** The stored user of a given name, if any. *)
Definition userOf (db : Db) (u : string) : option UserSchema.doc :=
  List.find (fun x => (UserSchema.username x =? u)%string) (users db).

(** ** A platform to run the model on

    An executable stand-in for the libraries, used to evaluate the handlers
    on concrete requests (the theorems themselves hold for every
    platform).  It follows the libraries where a concrete request depends
    on them: a string is cast to an ObjectId when it is 24 hexadecimal
    digits, and the empty string is no token.  For the rest it is as
    simple as the laws allow: numbers print and parse as decimal numerals,
    a hash is the password between two marks followed by the salt, and a
    token spells out its claims. *)

Module Ref.
Definition between (lo hi n : N) : bool := ((lo <=? n) && (n <=? hi))%N.

Definition hexDigit (c : ascii) : option N :=
  let n := N_of_ascii c in
  if between 48 57 n then Some (n - 48)%N
  else if between 97 102 n then Some (n - 87)%N
  else if between 65 70 n then Some (n - 55)%N
  else None.

Fixpoint hexValue (acc : N) (s : string) : option N :=
  match s with
  | EmptyString => Some acc
  | String c r =>
      match hexDigit c with
      | Some d => hexValue (16 * acc + d)%N r
      | None => None
      end
  end.

(** The cast of [findById]: 24 hexadecimal digits, read as a number.  (The
    12-byte strings some driver versions also take are not taken here.) *)
Definition castObjectId (s : string) : option ObjectId :=
  if (String.length s =? 24)%nat then hexValue 0 s else None.

Definition numberToString (n : Z) : string :=
  NilEmpty.string_of_int (Z.to_int n).

Definition stringToNumber (s : string) : option Z :=
  if (s =? "-")%string then None
  else option_map Z.of_int (NilEmpty.int_of_string s).

Definition mark : string := "$".

Definition bcrypt_hash (s salt : string) : string :=
  mark ++ s ++ mark ++ salt.

Definition bcrypt_compare (s h : string) : bool :=
  prefix (mark ++ s ++ mark) h.

Definition dot : ascii := "."%char.

(** The text before the first dot, and the text after it if there is
    one. *)
Fixpoint cut (s : string) : string * option string :=
  match s with
  | EmptyString => (EmptyString, None)
  | String c r =>
      if Ascii.eqb c dot then (EmptyString, Some r)
      else let (a, b) := cut r in (String c a, b)
  end.

Definition jwt_sign (p : Payload) (secret : string) (ttl t : Z) : string :=
  NilEmpty.string_of_uint (N.to_uint (payload_id p)) ++ String dot (
  NilEmpty.string_of_int (Z.to_int t) ++ String dot (
  NilEmpty.string_of_int (Z.to_int (t + ttl)) ++ String dot (
  payload_username p))).

Definition jwt_verify (token secret : string) (t : Z) : option Claims :=
  match cut token with
  | (a, Some r1) =>
      match cut r1 with
      | (b, Some r2) =>
          match cut r2 with
          | (c, Some u) =>
              match NilEmpty.uint_of_string a,
                    NilEmpty.int_of_string b,
                    NilEmpty.int_of_string c with
              | Some id, Some i, Some e =>
                  if t <? Z.of_int e
                  then Some (mkClaims (mkPayload (N.of_uint id) u)
                                      (Z.of_int i) (Z.of_int e))
                  else None
              | _, _, _ => None
              end
          | _ => None
          end
      | _ => None
      end
  | _ => None
  end.

Definition platform : Platform :=
  Build_Platform bcrypt_hash bcrypt_compare jwt_sign jwt_verify
                 castObjectId numberToString stringToNumber.

(** Sample data. *)
Definition env (t : Z) (id : ObjectId) : Env := mkEnv t "salt" id None.

Definition down (m : string) : Env := mkEnv 0 "salt" 1%N (Some m).

Definition widget : ItemSchema.doc :=
  ItemSchema.mk 1%N "Widget" 5 (VStr "A small widget") 1000.

Definition gadget : ItemSchema.doc :=
  ItemSchema.mk 2%N "Gadget" 7 VUndefined 2000.

Definition alice : UserSchema.doc :=
  UserSchema.mk 10%N "alice" (bcrypt_hash "wonderland" "salt").

Definition db1 : Db := mkDb [alice] [widget; gadget].

Definition id1 : string := "000000000000000000000001".
Definition id9 : string := "000000000000000000000009".

Definition noBody : ItemBody := mkItemBody VUndefined VUndefined VUndefined.

Definition request (h : option string) (id : string) (b : ItemBody)
  : Request :=
  mkRequest h id b None.

Definition aliceToken (t : Z) : string :=
  jwt_sign (mkPayload 10%N "alice") JWT_SECRET expiresIn t.

Definition aliceClaims : Claims := mkClaims (mkPayload 10 "alice") 0 3600.

Definition env1 : Env := env 5000 3.

(** Requests with no header, with a token nobody signed, with alice's
    token under two scheme words, with one word only, and with an empty
    header. *)
Definition bare : Request := request None id1 noBody.
Definition forged : Request := request (Some "Bearer garbage") id1 noBody.
Definition signed : Request :=
  request (Some ("Bearer " ++ aliceToken 0)) id1 noBody.
Definition basic : Request :=
  request (Some ("Basic " ++ aliceToken 0)) id1 noBody.
Definition lone : Request := request (Some "Bearer") id1 noBody.
Definition empty : Request := request (Some ""%string) id1 noBody.

(** An update of the widget that gives a quantity of zero, an empty name
    and nothing else. *)
Definition zeroed : Request :=
  request None id1 (mkItemBody (VStr "") (VNum 0) VUndefined).

(** Requests for an id nothing is stored under, and for an id that is no
    ObjectId. *)
Definition stray : Request := request None id9 noBody.
Definition unparsable : Request := request None "abc" noBody.

Definition fiveWidgets : Request :=
  request None "" (mkItemBody (VStr "Widget") (VNum 5) VUndefined).

(** Credentials: alice under another password, bob twice, and two bodies
    that carry no password. *)
Definition aliceAgain : AuthBody := mkAuthBody "alice" (VStr "looking-glass").
Definition bob : AuthBody := mkAuthBody "bob" (VStr "builder").
Definition bobAgain : AuthBody := mkAuthBody "bob" (VStr "other").
Definition aliceBlank : AuthBody := mkAuthBody "alice" VUndefined.
Definition bobBlank : AuthBody := mkAuthBody "bob" VUndefined.
End Ref.

(** [Number.MAX_SAFE_INTEGER], 2^53 - 1: up to it in absolute value, an
    integer written in a JSON body is the number the route receives. *)
Definition MAX_SAFE_INTEGER : Z := 9007199254740991.

(** The failures the API answers with, the caught errors apart. *)
Definition failure_table : list (Z * Json) :=
  [ (400, JMessage "User already exists");
    (400, JMessage "Invalid credentials");
    (401, JMessage "No token provided");
    (403, JMessage "Token is invalid");
    (404, JMessage "Item not found") ].

Definition is_failure (r : Response) : Prop :=
  In (status r, json r) failure_table \/
  exists e, r = mkResponse 500 (JError "Server error" e).

(** ** The React client ([frontend.jsx])

    The three components are modelled by their state and their event
    handlers; every [axios] call is a call of the API above, made with the
    [Authorization] header [axios.defaults] holds at that moment. *)

(** axios resolves a response whose status is 2xx and rejects the
    others. *)
Definition resolved (r : Response) : bool :=
  (200 <=? status r) && (status r <? 300).

(** [err.response?.data?.message || fallback] *)
Definition shown (j : Json) (fallback : string) : string :=
  match message j with
  | Some m => if (m =? "")%string then fallback else m
  | None => fallback
  end.

(** [res.data.token] *)
Definition tokenOf (j : Json) : option string :=
  match j with
  | JToken t => Some t
  | _ => None
  end.

(** [JSON.stringify] of a number: NaN goes out as [null]. *)
Definition jsonNumber (n : option Z) : value :=
  match n with
  | Some z => VNum z
  | None => VNull
  end.

Module App.
(** The [token] state, [localStorage['token']] and
    [axios.defaults.headers.common['Authorization']]; [None] is a [null]
    state, a missing entry, a missing header. *)
Record state : Type := mk {
  token : option string;
  stored : option string;
  authorization : option string
}.

(** Truthiness of a token that is [null] or a string. *)
Definition given (t : option string) : bool :=
  match t with
  | Some s => negb (s =? "")%string
  | None => false
  end.

(** The first render after a page load: [useState(localStorage.getItem(
    'token'))], with [axios.defaults] as the library ships them. *)
Definition load (storedToken : option string) : state :=
  mk storedToken storedToken None.

Definition handleSetToken (newToken : option string) (a : state) : state :=
  if given newToken
  then mk newToken newToken
          (option_map (fun t => "Bearer " ++ t) newToken)
  else mk newToken None None.

Definition handleLogout (a : state) : state := handleSetToken None a.

(** [!token ? <LoginPage/> : <InventoryDashboard/>] *)
Definition showsDashboard (a : state) : bool := given (token a).
End App.

Module LoginPage.
Record state : Type := mk {
  isLogin : bool;
  username : string;
  password : string;
  error : string;
  message : string
}.

Definition initial : state := mk true "" "" "" "".

Section Handlers.
Context {P : Platform}.

(** [handleSubmit]: post the credentials to the endpoint of the current
    mode; a login that resolves hands [res.data.token] to
    [onLoginSuccess], a registration that resolves switches to login
    mode, a rejection shows the server's message. *)
Definition handleSubmit (env : Env) (p : state) (a : App.state) (db : Db)
  : state * App.state * Db :=
  let credentials := mkAuthBody (username p) (VStr (password p)) in
  let res :=
    if isLogin p then login env credentials db
    else register env credentials db in
  if resolved (fst res) then
    if isLogin p
    then (mk (isLogin p) (username p) (password p) "" "",
          App.handleSetToken (tokenOf (json (fst res))) a, snd res)
    else (mk true (username p) (password p) ""
             "Registration successful! Please log in.",
          a, snd res)
  else (mk (isLogin p) (username p) (password p)
           (shown (json (fst res)) "An error occurred.") "",
        a, snd res).
End Handlers.
End LoginPage.

Module InventoryDashboard.
(** The list, the two flags, the three form fields and the item being
    edited.  The form fields hold what the inputs typed or what
    [handleEdit] copied from an item. *)
Record state : Type := mk {
  items : list ItemSchema.doc;
  loading : bool;
  error : string;
  name : string;
  quantity : value;
  description : value;
  editingItem : option ItemSchema.doc
}.

Definition initial : state := mk [] true "" "" (VStr "") (VStr "") None.

Definition handleEdit (item : ItemSchema.doc) (d : state) : state :=
  mk (items d) (loading d) (error d)
     (ItemSchema.name item) (VNum (ItemSchema.quantity item))
     (ItemSchema.description item) (Some item).

Definition resetForm (d : state) : state :=
  mk (items d) (loading d) (error d) "" (VStr "") (VStr "") None.

Definition setError (m : string) (d : state) : state :=
  mk (items d) (loading d) m (name d) (quantity d) (description d)
     (editingItem d).

Section Handlers.
Context {P : Platform}.
(** How an ObjectId prints in JSON and in a URL. *)
Variable toHexString : ObjectId -> string.

(** [Number(quantity)] on what the quantity field holds; [None] is NaN. *)
Definition Number (v : value) : option Z :=
  match v with
  | VNum n => Some n
  | VStr s => stringToNumber s
  | VBool b => Some (if b then 1 else 0)
  | VNull => Some 0
  | VUndefined => None
  end.

(** [fetchItems]: [GET /api/items]; the answer replaces the list, a
    rejection shows the fixed fetch error; [loading] ends false. *)
Definition fetchItems (env : Env) (d : state) (a : App.state) (db : Db)
  : state * Db :=
  let res := route ListItems env
               (mkRequest (App.authorization a) ""
                          (mkItemBody VUndefined VUndefined VUndefined) None)
               db in
  if resolved (fst res) then
    match json (fst res) with
    | JItems l =>
        (mk l false "" (name d) (quantity d) (description d) (editingItem d),
         snd res)
    | _ =>
        (mk (items d) false "" (name d) (quantity d) (description d)
            (editingItem d),
         snd res)
    end
  else
    (mk (items d) false
        "Failed to fetch items. Please check your connection or token."
        (name d) (quantity d) (description d) (editingItem d),
     snd res).

(** [handleFormSubmit]: [PUT] when an item is being edited, [POST]
    otherwise; then the form is reset and the list fetched again; a
    rejection shows the server's message and keeps the form. *)
Definition handleFormSubmit (env env' : Env) (d : state) (a : App.state)
    (db : Db) : state * Db :=
  let itemData :=
    mkItemBody (VStr (name d)) (jsonNumber (Number (quantity d)))
               (description d) in
  let res :=
    match editingItem d with
    | Some item =>
        route UpdateItem env
          (mkRequest (App.authorization a)
                     (toHexString (ItemSchema._id item)) itemData None) db
    | None =>
        route CreateItem env
          (mkRequest (App.authorization a) "" itemData None) db
    end in
  if resolved (fst res)
  then fetchItems env' (resetForm d) a (snd res)
  else (setError (shown (json (fst res)) "Failed to save item.") d, snd res).

(** [handleDelete]: after [window.confirm], [DELETE] and fetch again. *)
Definition handleDelete (confirmed : bool) (env env' : Env)
    (itemId : ObjectId) (d : state) (a : App.state) (db : Db)
  : state * Db :=
  if confirmed then
    let res :=
      route DeleteItem env
        (mkRequest (App.authorization a) (toHexString itemId)
                   (mkItemBody VUndefined VUndefined VUndefined) None) db in
    if resolved (fst res)
    then fetchItems env' d a (snd res)
    else (setError (shown (json (fst res)) "Failed to delete item.") d,
          snd res)
  else (d, db).
End Handlers.
End InventoryDashboard.

(** What became of a request on the network: the server's answer arrived;
    the server served the request but its answer was lost; the request
    never reached the server.  In the last two cases axios rejects with an
    error that has no [response]. *)
Inductive Delivery : Type := Answered | Lost | Unsent.

(** [handleSubmit] with the network in between: when the answer arrives
    it is [LoginPage.handleSubmit]; when none does, [err.response] is
    undefined and the [catch] shows the fallback, the mode and the token
    staying as they were. *)
Definition handleSubmitOver {P : Platform} (net : Delivery) (env : Env)
    (p : LoginPage.state) (a : App.state) (db : Db)
  : LoginPage.state * App.state * Db :=
  match net with
  | Answered => LoginPage.handleSubmit env p a db
  | Lost =>
      (LoginPage.mk (LoginPage.isLogin p) (LoginPage.username p)
                    (LoginPage.password p) "An error occurred." "",
       a, snd (LoginPage.handleSubmit env p a db))
  | Unsent =>
      (LoginPage.mk (LoginPage.isLogin p) (LoginPage.username p)
                    (LoginPage.password p) "An error occurred." "",
       a, db)
  end.

(** The header the browser holds takes a request past the gate at the
    clock reading of [env]. *)
Definition passes {P : Platform} (env : Env) (a : App.state) : Prop :=
  exists token claims,
    bearer (App.authorization a) = Some token /\
    jwt_verify token JWT_SECRET (clock env) = Some claims.

(** Sample data for the client. *)
Module Demo.
Definition hexChar (d : N) : ascii :=
  match String.get (N.to_nat d) "0123456789abcdef" with
  | Some c => c
  | None => "0"%char
  end.

Fixpoint hexDigits (k : nat) (n : N) (acc : string) : string :=
  match k with
  | O => acc
  | S k' => hexDigits k' (n / 16)%N (String (hexChar (n mod 16)%N) acc)
  end.

(** An ObjectId as its 24 hexadecimal digits. *)
Definition toHexString (id : ObjectId) : string := hexDigits 24 id "".

(** A browser in which alice has logged in at clock reading 0. *)
Definition aliceApp : App.state :=
  App.handleSetToken (Some (Ref.aliceToken 0)) (App.load None).

(** The login page with alice's credentials typed in, right and wrong. *)
Definition aliceForm : LoginPage.state :=
  LoginPage.mk true "alice" "wonderland" "" "".
Definition aliceSlip : LoginPage.state :=
  LoginPage.mk true "alice" "wonderlnad" "" "".

(** A signed update of the widget whose quantity is [null]. *)
Definition broken : Request :=
  Ref.request (Some ("Bearer " ++ Ref.aliceToken 0)) Ref.id1
              (mkItemBody (VStr "Sprocket") VNull VUndefined).

(** Requests for the id the next create is given, and for a second
    widget of quantity minus four. *)
Definition third : Request :=
  Ref.request None "000000000000000000000003" Ref.noBody.
Definition owed : Request :=
  Ref.request None "" (mkItemBody (VStr "Widget") (VNum (-4)) VUndefined).

(** Alice's right credentials, and two moments: the one her sample token
    was signed at, and one hour and a second later. *)
Definition alice : AuthBody := mkAuthBody "alice" (VStr "wonderland").
Definition dawn : Env := Ref.env 0 3.

(** A token for a second user, and a request signed with it. *)
Definition bobToken : string :=
  Ref.jwt_sign (mkPayload 11 "bob") JWT_SECRET expiresIn 0.
Definition bobClaims : Claims := mkClaims (mkPayload 11 "bob") 0 3600.
Definition signedByBob : Request :=
  Ref.request (Some ("Bearer " ++ bobToken)) Ref.id1 Ref.noBody.

(** Alice's token followed by more words, and a registration with an
    empty username. *)
Definition trailing : Request :=
  Ref.request (Some ("Bearer " ++ Ref.aliceToken 0 ++ " and more words"))
              Ref.id1 Ref.noBody.
Definition nobody : AuthBody := mkAuthBody "" (VStr "secret").

(** An update of the widget with a new name, a new quantity and an empty
    description. *)
Definition blanked : Request :=
  Ref.request None Ref.id1 (mkItemBody (VStr "Sprocket") (VNum 9) (VStr "")).

(** The dashboard with the widget taken into the form, with a new
    gadget typed in, and with a quantity that is no number. *)
Definition editing : InventoryDashboard.state :=
  InventoryDashboard.handleEdit Ref.widget InventoryDashboard.initial.
Definition typed : InventoryDashboard.state :=
  InventoryDashboard.mk [] false "" "Gizmo" (VStr "12") (VStr "") None.
Definition mistyped : InventoryDashboard.state :=
  InventoryDashboard.mk [] false "" "Gizmo" (VStr "a dozen") (VStr "") None.

(** The login page in register mode with a new user typed in. *)
Definition newcomer : LoginPage.state :=
  LoginPage.mk false "carol" "secret" "" "".

(** A dashboard that lists the two items of [Ref.db1]. *)
Definition listing : InventoryDashboard.state :=
  InventoryDashboard.mk [Ref.widget; Ref.gadget] false "" "" (VStr "")
                        (VStr "") None.
End Demo.

(** * Properties *)

(** ** Strings and [split] *)

Lemma split_lacks (c : ascii) (s : string) :
  lacks c s = true -> split c s = [s].
Proof.
  induction s as [|a r IH]; simpl; [reflexivity|].
  intros H. apply andb_true_iff in H as [Ha Hr].
  apply negb_true_iff in Ha. rewrite Ha, (IH Hr). reflexivity.
Qed.

Lemma split_at (c : ascii) (w r : string) :
  lacks c w = true -> split c (w ++ String c r) = w :: split c r.
Proof.
  induction w as [|a w IH]; simpl.
  - intros _. now rewrite Ascii.eqb_refl.
  - intros H. apply andb_true_iff in H as [Ha Hw].
    apply negb_true_iff in Ha. rewrite Ha, (IH Hw). reflexivity.
Qed.

Lemma append_mark_nonempty (w r : string) (c : ascii) :
  (w ++ String c r =? "")%string = false.
Proof. destruct w; reflexivity. Qed.

Lemma eqb_empty_false (s : string) :
  s <> ""%string -> (s =? "")%string = false.
Proof. intros H. now apply String.eqb_neq. Qed.

(** ** The gate *)

Section GateFacts.
Context {P : Platform}.

Lemma bearer_missing : bearer None = None.
Proof. reflexivity. Qed.

Lemma bearer_one_word (h : string) :
  h <> ""%string -> lacks space h = true -> bearer (Some h) = None.
Proof.
  intros Hne Hl. unfold bearer.
  now rewrite (eqb_empty_false h Hne), (split_lacks _ _ Hl).
Qed.

Lemma bearer_two_words (w1 w2 : string) :
  lacks space w1 = true -> lacks space w2 = true ->
  bearer (Some (w1 ++ String space w2)) = Some w2.
Proof.
  intros H1 H2. unfold bearer.
  now rewrite append_mark_nonempty, (split_at _ _ _ H1), (split_lacks _ _ H2).
Qed.

Lemma bearer_empty : bearer (Some ""%string) = Some ""%string.
Proof. reflexivity. Qed.

(** An empty header is never answered as a missing one. *)
Lemma gate_empty_header env req :
  authorization req = Some ""%string ->
  authenticateToken env req <>
    Responded (mkResponse 401 (JMessage "No token provided")).
Proof.
  intros H. unfold authenticateToken. rewrite H. simpl.
  destruct (jwt_verify "" JWT_SECRET (clock env)); discriminate.
Qed.

(** The gate's three outcomes, by what [bearer] and [jwt_verify] say. *)
Lemma gate_no_token env req :
  bearer (authorization req) = None ->
  authenticateToken env req =
    Responded (mkResponse 401 (JMessage "No token provided")).
Proof. intros H. unfold authenticateToken. now rewrite H. Qed.

Lemma gate_rejected env req token :
  bearer (authorization req) = Some token ->
  jwt_verify token JWT_SECRET (clock env) = None ->
  authenticateToken env req =
    Responded (mkResponse 403 (JMessage "Token is invalid")).
Proof. intros H V. unfold authenticateToken. now rewrite H, V. Qed.

Lemma gate_accepted env req token claims :
  bearer (authorization req) = Some token ->
  jwt_verify token JWT_SECRET (clock env) = Some claims ->
  authenticateToken env req =
    Next (mkRequest (authorization req) (params_id req) (body req)
                    (Some claims)).
Proof. intros H V. unfold authenticateToken. now rewrite H, V. Qed.
End GateFacts.

(** C1.  Every protected item operation sits behind the gate: with no
    credential header the route answers 401 "No token provided"
    (Unauthenticated); with a token that [jwt.verify] rejects, as it does
    an invalid or an expired one, the route answers 403 "Token is invalid"
    (Forbidden); in both cases the store is left alone.  With a token that
    verifies, the gate hands on the request with the verified claims
    attached as [req.user] (and nothing else changed), and the route is
    the operation's handler run on that request. *)
Theorem gate_wraps_every_item_operation
    {P : Platform} (op : ItemOp) (env : Env) (req : Request) (db : Db) :
  (authorization req = None ->
   route op env req db =
     (mkResponse 401 (JMessage "No token provided"), db)) /\
  (forall token,
     bearer (authorization req) = Some token ->
     jwt_verify token JWT_SECRET (clock env) = None ->
     route op env req db =
       (mkResponse 403 (JMessage "Token is invalid"), db)) /\
  (forall token claims,
     bearer (authorization req) = Some token ->
     jwt_verify token JWT_SECRET (clock env) = Some claims ->
     exists req',
       authenticateToken env req = Next req' /\
       user req' = Some claims /\
       authorization req' = authorization req /\
       params_id req' = params_id req /\
       body req' = body req /\
       route op env req db = handler op env req' db).
Proof.
  unfold route. repeat split.
  - intros H. rewrite gate_no_token; [reflexivity|]. now rewrite H.
  - intros token H V. now rewrite (gate_rejected env req token H V).
  - intros token claims H V.
    rewrite (gate_accepted env req token claims H V).
    eexists. repeat split.
Qed.

(** A token that has outlived its hour is one [jwt.verify] rejects, so a
    request carrying it is Forbidden. *)
Lemma expired_token_forbidden
    {P : Platform} (op : ItemOp) (env : Env) (req : Request) (db : Db)
    (p : Payload) (t : Z) :
  jwt_sound P ->
  bearer (authorization req) = Some (jwt_sign p JWT_SECRET expiresIn t) ->
  t + expiresIn <= clock env ->
  route op env req db = (mkResponse 403 (JMessage "Token is invalid"), db).
Proof.
  intros J H E. unfold route.
  rewrite (gate_rejected env req _ H); [reflexivity|].
  rewrite J. destruct (Z.ltb_spec (clock env) (t + expiresIn)); [lia|reflexivity].
Qed.

Lemma gate_wraps_every_item_operation_witness :
  @route Ref.platform DeleteItem Ref.env1 Ref.bare Ref.db1 =
    (mkResponse 401 (JMessage "No token provided"), Ref.db1) /\
  @route Ref.platform DeleteItem Ref.env1 Ref.forged Ref.db1 =
    (mkResponse 403 (JMessage "Token is invalid"), Ref.db1) /\
  exists req',
    @authenticateToken Ref.platform Ref.env1 Ref.signed = Next req' /\
    user req' = Some Ref.aliceClaims /\
    user Ref.signed = None /\
    @route Ref.platform DeleteItem Ref.env1 Ref.signed Ref.db1 =
      @handler Ref.platform DeleteItem Ref.env1 req' Ref.db1.
Proof.
  split; [|split].
  - apply (@gate_wraps_every_item_operation
             Ref.platform DeleteItem Ref.env1 Ref.bare).
    reflexivity.
  - apply (proj1 (proj2 (@gate_wraps_every_item_operation
                           Ref.platform DeleteItem Ref.env1 Ref.forged Ref.db1))
             "garbage"%string); reflexivity.
  - destruct (proj2 (proj2 (@gate_wraps_every_item_operation
                              Ref.platform DeleteItem Ref.env1 Ref.signed
                              Ref.db1))
                (Ref.aliceToken 0) Ref.aliceClaims eq_refl eq_refl)
      as (req' & G & U & _ & _ & _ & R).
    exists req'. repeat split; assumption.
Defined.

(** C9, as stated, fails at the empty header: it has no space character,
    yet [authHeader && ...] yields the header itself, which is not
    [null], so the gate goes on to [jwt.verify] and answers 403, not
    401. *)
Lemma empty_header_is_not_unauthenticated :
  lacks space "" = true /\
  @authenticateToken Ref.platform Ref.env1 Ref.empty =
    Responded (mkResponse 403 (JMessage "Token is invalid")) /\
  @authenticateToken Ref.platform Ref.env1 Ref.empty <>
    Responded (mkResponse 401 (JMessage "No token provided")).
Proof.
  repeat split; try reflexivity. vm_compute. discriminate.
Qed.

(** C9, amended.  The gate never looks at the scheme word: a header of two
    space-separated words whose second word verifies is let through with
    the claims attached, whatever the first word.  A non-empty header with
    no space character has no second word and is Unauthenticated (401),
    not Forbidden. *)
Theorem gate_ignores_scheme_word
    {P : Platform} (env : Env) (req : Request) :
  (forall scheme token claims,
     lacks space scheme = true ->
     lacks space token = true ->
     authorization req = Some (scheme ++ String space token) ->
     jwt_verify token JWT_SECRET (clock env) = Some claims ->
     authenticateToken env req =
       Next (mkRequest (authorization req) (params_id req) (body req)
                       (Some claims))) /\
  (forall h,
     authorization req = Some h ->
     h <> ""%string ->
     lacks space h = true ->
     authenticateToken env req =
       Responded (mkResponse 401 (JMessage "No token provided"))).
Proof.
  split.
  - intros scheme token claims Hs Ht Hh V.
    apply (gate_accepted env req token claims); [|exact V].
    rewrite Hh. now apply bearer_two_words.
  - intros h Hh Hne Hl. apply gate_no_token.
    rewrite Hh. now apply bearer_one_word.
Qed.

Lemma gate_ignores_scheme_word_witness :
  @authenticateToken Ref.platform Ref.env1 Ref.basic =
    Next (mkRequest (authorization Ref.basic) Ref.id1 Ref.noBody
                    (Some Ref.aliceClaims)) /\
  @authenticateToken Ref.platform Ref.env1 Ref.lone =
    Responded (mkResponse 401 (JMessage "No token provided")).
Proof.
  split.
  - apply (proj1 (@gate_ignores_scheme_word Ref.platform Ref.env1 Ref.basic)
             "Basic"%string (Ref.aliceToken 0)); reflexivity.
  - apply (proj2 (@gate_ignores_scheme_word Ref.platform Ref.env1 Ref.lone)
             "Bearer"%string); [reflexivity|discriminate|reflexivity].
Defined.


(** ** Lists of documents *)

Lemma NoDup_snoc {A} (l : list A) (a : A) :
  NoDup l -> ~ In a l -> NoDup (l ++ [a]).
Proof.
  induction l as [|x l IH]; simpl; intros Hnd Hin.
  - constructor; [intros []|constructor].
  - inversion Hnd as [|? ? Hx Hl]; subst. constructor.
    + rewrite in_app_iff. simpl. intros [H|[H|[]]]; [now apply Hx|].
      subst. apply Hin. now left.
    + apply IH; [exact Hl|]. intros H. apply Hin. now right.
Qed.

Lemma existsb_N_absent {A} (f : A -> N) (a : N) (l : list A) :
  existsb (fun x => (f x =? a)%N) l = false -> ~ In a (map f l).
Proof.
  induction l as [|x l IH]; simpl; [tauto|].
  intros H. apply orb_false_iff in H as [Hx Hl].
  apply N.eqb_neq in Hx. intros [E|E]; [now apply Hx|now apply IH].
Qed.

Lemma existsb_string_absent {A} (f : A -> string) (a : string) (l : list A) :
  existsb (fun x => (f x =? a)%string) l = false -> ~ In a (map f l).
Proof.
  induction l as [|x l IH]; simpl; [tauto|].
  intros H. apply orb_false_iff in H as [Hx Hl].
  apply String.eqb_neq in Hx. intros [E|E]; [now apply Hx|now apply IH].
Qed.

Lemma find_has_id (oid : ObjectId) (l : list ItemSchema.doc) i :
  find (Item.has_id oid) l = Some i -> ItemSchema._id i = oid /\ In i l.
Proof.
  intros H. apply find_some in H as [Hin Hid].
  split; [now apply N.eqb_eq in Hid|exact Hin].
Qed.

Lemma find_absent (oid : ObjectId) (l : list ItemSchema.doc) :
  ~ In oid (map ItemSchema._id l) -> find (Item.has_id oid) l = None.
Proof.
  induction l as [|x l IH]; simpl; [reflexivity|].
  intros H. unfold Item.has_id at 1.
  destruct (N.eqb_spec (ItemSchema._id x) oid) as [E|E].
  - exfalso. apply H. now left.
  - apply IH. intros Hin. apply H. now right.
Qed.

Section ReplaceRemove.
Variable i : ItemSchema.doc.
Let oid := ItemSchema._id i.

Lemma replaceOne_found l j :
  find (Item.has_id oid) l = Some j -> exists l', Item.replaceOne i l = Some l'.
Proof.
  induction l as [|x l IH]; simpl; [discriminate|].
  fold oid. destruct (Item.has_id oid x); [eauto|].
  intros H. destruct (IH H) as [l' E]. rewrite E. simpl. eauto.
Qed.

Lemma replaceOne_ids l l' :
  Item.replaceOne i l = Some l' ->
  map ItemSchema._id l' = map ItemSchema._id l.
Proof.
  revert l'. induction l as [|x l IH]; simpl; [discriminate|].
  intros l'. fold oid. destruct (Item.has_id oid x) eqn:E.
  - intros [= <-]. simpl. f_equal. symmetry. now apply N.eqb_eq in E.
  - destruct (Item.replaceOne i l) as [r|]; simpl; [|discriminate].
    intros [= <-]. simpl. f_equal. now apply IH.
Qed.

Lemma replaceOne_find l l' :
  Item.replaceOne i l = Some l' -> find (Item.has_id oid) l' = Some i.
Proof.
  revert l'. induction l as [|x l IH]; simpl; [discriminate|].
  intros l'. fold oid. destruct (Item.has_id oid x) eqn:E.
  - intros [= <-]. simpl. unfold Item.has_id at 1. fold oid.
    now rewrite N.eqb_refl.
  - destruct (Item.replaceOne i l) as [r|]; simpl; [|discriminate].
    intros [= <-]. simpl. rewrite E. now apply IH.
Qed.

Lemma replaceOne_others l l' :
  Item.replaceOne i l = Some l' ->
  filter (fun x => negb (Item.has_id oid x)) l' =
  filter (fun x => negb (Item.has_id oid x)) l.
Proof.
  revert l'. induction l as [|x l IH]; simpl; [discriminate|].
  intros l'. fold oid. destruct (Item.has_id oid x) eqn:E.
  - intros [= <-]. simpl. unfold Item.has_id at 1. fold oid.
    now rewrite N.eqb_refl.
  - destruct (Item.replaceOne i l) as [r|]; simpl; [|discriminate].
    intros [= <-]. simpl. rewrite E. simpl. f_equal. now apply IH.
Qed.

Lemma replaceOne_Forall (Q : ItemSchema.doc -> Prop) l l' :
  Item.replaceOne i l = Some l' -> Q i -> Forall Q l -> Forall Q l'.
Proof.
  revert l'. induction l as [|x l IH]; simpl; [discriminate|].
  intros l' H Qi Ql. inversion Ql as [|? ? Qx Qr]; subst.
  fold oid in H. destruct (Item.has_id oid x).
  - injection H as <-. now constructor.
  - destruct (Item.replaceOne i l) as [r|]; simpl in H; [|discriminate].
    injection H as <-. constructor; [exact Qx|now apply IH].
Qed.
End ReplaceRemove.

Lemma removeOne_missing (oid : ObjectId) l :
  find (Item.has_id oid) l = None -> Item.removeOne oid l = l.
Proof.
  induction l as [|x l IH]; simpl; [reflexivity|].
  destruct (Item.has_id oid x); [discriminate|].
  intros H. now rewrite IH.
Qed.

Lemma removeOne_incl (oid : ObjectId) l x :
  In x (Item.removeOne oid l) -> In x l.
Proof.
  induction l as [|y l IH]; simpl; [tauto|].
  destruct (Item.has_id oid y); simpl; [tauto|].
  intros [H|H]; [now left|right; now apply IH].
Qed.

Lemma removeOne_ids_incl (oid : ObjectId) l a :
  In a (map ItemSchema._id (Item.removeOne oid l)) ->
  In a (map ItemSchema._id l).
Proof.
  rewrite !in_map_iff. intros (x & E & H).
  exists x. split; [exact E|now apply removeOne_incl in H].
Qed.

Lemma removeOne_NoDup (oid : ObjectId) l :
  NoDup (map ItemSchema._id l) ->
  NoDup (map ItemSchema._id (Item.removeOne oid l)).
Proof.
  induction l as [|x l IH]; simpl; [trivial|].
  intros H. inversion H as [|? ? Hx Hl]; subst.
  destruct (Item.has_id oid x); simpl; [exact Hl|].
  constructor; [|now apply IH].
  intros Hin. apply Hx. now apply removeOne_ids_incl in Hin.
Qed.

Lemma removeOne_gone (oid : ObjectId) l :
  NoDup (map ItemSchema._id l) ->
  find (Item.has_id oid) (Item.removeOne oid l) = None.
Proof.
  induction l as [|x l IH]; simpl; [reflexivity|].
  intros H. inversion H as [|? ? Hx Hl]; subst.
  destruct (Item.has_id oid x) eqn:E; simpl.
  - apply N.eqb_eq in E. subst oid. now apply find_absent.
  - rewrite E. now apply IH.
Qed.

Lemma removeOne_others (oid : ObjectId) l :
  filter (fun x => negb (Item.has_id oid x)) (Item.removeOne oid l) =
  filter (fun x => negb (Item.has_id oid x)) l.
Proof.
  induction l as [|x l IH]; simpl; [reflexivity|].
  destruct (Item.has_id oid x) eqn:E; simpl; [reflexivity|].
  rewrite E. simpl. now f_equal.
Qed.

Lemma removeOne_Forall (Q : ItemSchema.doc -> Prop) (oid : ObjectId) l :
  Forall Q l -> Forall Q (Item.removeOne oid l).
Proof.
  rewrite !Forall_forall. intros H x Hin. apply H.
  now apply removeOne_incl in Hin.
Qed.

(** ** The store operations, case by case *)

Section StoreFacts.
Context {P : Platform}.

Lemma store_up env : fault env = None -> store env = ret tt.
Proof. unfold store. now intros ->. Qed.

Lemma store_down env m : fault env = Some m -> store env = throw (StorageFault m).
Proof. unfold store. now intros ->. Qed.

Lemma requiredString_inv v s :
  requiredString v = Some s -> v = VStr s /\ s <> ""%string.
Proof.
  destruct v as [| | | |x]; simpl; try discriminate.
  destruct (String.eqb_spec x ""); [discriminate|].
  intros [= <-]. now split.
Qed.

Lemma requiredString_text s :
  s <> ""%string -> requiredString (VStr s) = Some s.
Proof. intros H. simpl. now rewrite (eqb_empty_false s H). Qed.

Lemma requiredNumber_inv v n :
  requiredNumber v = Some n -> v = Some (VNum n).
Proof.
  destruct v as [[| | |x|]|]; simpl; try discriminate. now intros [= <-].
Qed.

Lemma castString_text v : is_text (castString v) = true.
Proof. now destruct v. Qed.

Lemma castString_stable v : is_text v = true -> castString v = v.
Proof. now destruct v. Qed.

Lemma validateItem_inv id n q d t i :
  validateItem id n q d t = inr i ->
  exists s k,
    n = VStr s /\ s <> ""%string /\ q = Some (VNum k) /\
    i = ItemSchema.mk id s k d t.
Proof.
  unfold validateItem.
  destruct (requiredString n) as [s|] eqn:En;
    destruct (requiredNumber q) as [k|] eqn:Eq; try discriminate.
  intros [= <-]. apply requiredString_inv in En as [-> Hs].
  apply requiredNumber_inv in Eq as ->. now exists s, k.
Qed.

Lemma validateItem_ok id s k d t :
  s <> ""%string ->
  validateItem id (VStr s) (Some (VNum k)) d t =
    ret (ItemSchema.mk id s k d t).
Proof.
  intros H. unfold validateItem. now rewrite (requiredString_text s H).
Qed.


Lemma validateItem_no_quantity id n q d t :
  requiredNumber q = None ->
  exists paths,
    validateItem id n q d t = throw (ValidationError "Item" paths) /\
    In "quantity"%string paths.
Proof.
  intros H. unfold validateItem. rewrite H.
  destruct (requiredString n); eexists; (split; [reflexivity|simpl; tauto]).
Qed.

Lemma validateUser_inv id u p d :
  validateUser id u p = inr d ->
  exists s h,
    u = VStr s /\ s <> ""%string /\ p = VStr h /\ h <> ""%string /\
    d = UserSchema.mk id s h.
Proof.
  unfold validateUser.
  destruct (requiredString u) as [s|] eqn:Eu;
    destruct (requiredString p) as [h|] eqn:Ep; try discriminate.
  intros [= <-]. apply requiredString_inv in Eu as [-> Hs].
  apply requiredString_inv in Ep as [-> Hh]. now exists s, h.
Qed.

Lemma findOne_up env db u :
  fault env = None -> User.findOne env db u = ret (userOf db u).
Proof. intros H. unfold User.findOne. now rewrite (store_up env H). Qed.

Lemma findOne_down env db u m :
  fault env = Some m -> User.findOne env db u = throw (StorageFault m).
Proof. intros H. unfold User.findOne. now rewrite (store_down env m H). Qed.

Lemma findById_up env db id oid :
  castObjectId id = Some oid -> fault env = None ->
  Item.findById env db id = ret (itemOf db oid).
Proof.
  intros C H. unfold Item.findById. now rewrite C, (store_up env H).
Qed.

Lemma findById_malformed env db id :
  castObjectId id = None ->
  Item.findById env db id = throw (CastError "_id" id).
Proof. intros C. unfold Item.findById. now rewrite C. Qed.

(** What a successful [save] of a new user did. *)
Lemma user_save_inv env db u p d db' :
  User.save env db u p = inr (d, db') ->
  validateUser (new_id env) (castString u) (castString p) = inr d /\
  fault env = None /\
  ~ In (UserSchema._id d) (map UserSchema._id (users db)) /\
  ~ In (UserSchema.username d) (map UserSchema.username (users db)) /\
  db' = mkDb (users db ++ [d]) (items db).
Proof.
  unfold User.save, bind.
  destruct (validateUser _ _ _) as [e|x] eqn:V; [discriminate|].
  unfold store. destruct (fault env); [discriminate|]. simpl.
  destruct (existsb _ (users db)) eqn:E1; [discriminate|].
  destruct (existsb _ (users db)) eqn:E2 in |- *; [discriminate|].
  intros [= <- <-]. repeat split; trivial.
  - now apply existsb_N_absent in E1.
  - now apply existsb_string_absent in E2.
Qed.

(** What a successful [save] of a new item did. *)
Lemma item_insert_inv env db doc i db' :
  Item.insert env db doc = inr (i, db') ->
  doc = inr i /\ fault env = None /\
  ~ In (ItemSchema._id i) (map ItemSchema._id (items db)) /\
  db' = mkDb (users db) (items db ++ [i]).
Proof.
  unfold Item.insert, bind. destruct doc as [e|x]; [discriminate|].
  unfold store. destruct (fault env); [discriminate|]. simpl.
  destruct (existsb _ (items db)) eqn:E; [discriminate|].
  intros [= <- <-]. repeat split; trivial.
  now apply (existsb_N_absent ItemSchema._id) in E.
Qed.

(** What a successful [save] of a loaded item did. *)
Lemma item_update_inv env db doc i db' :
  Item.update env db doc = inr (i, db') ->
  doc = inr i /\ fault env = None /\
  exists l, Item.replaceOne i (items db) = Some l /\
            db' = mkDb (users db) l.
Proof.
  unfold Item.update, bind. destruct doc as [e|x]; [discriminate|].
  unfold store. destruct (fault env); [discriminate|]. simpl.
  destruct (Item.replaceOne x (items db)) as [l|] eqn:E; [|discriminate].
  intros [= <- <-]. repeat split; trivial. now exists l.
Qed.

Lemma assign_inv env b item i :
  assign env b item = inr i ->
  ItemSchema._id i = ItemSchema._id item /\
  ItemSchema.name i <> ""%string /\
  is_text (ItemSchema.description i) = true /\
  ItemSchema.lastUpdated i = now env.
Proof.
  unfold assign. intros H.
  apply validateItem_inv in H as (s & k & _ & Hs & _ & ->). simpl.
  repeat split; trivial. apply castString_text.
Qed.
End StoreFacts.

(** ** The store's invariant *)

Section Invariant.
Context {P : Platform}.

Lemma emptyDb_valid : valid_db emptyDb.
Proof. split; simpl; constructor. Qed.

Lemma try_catch_inv db body r db' :
  try_catch db body = (r, db') ->
  body = inr (r, db') \/ (exists e, body = inl e /\ r = serverError e /\ db' = db).
Proof.
  destruct body as [e|[r0 d0]]; simpl; intros [= <- <-]; [right|left]; eauto.
Qed.

Lemma valid_add_user db d :
  valid_db db ->
  ~ In (UserSchema._id d) (map UserSchema._id (users db)) ->
  ~ In (UserSchema.username d) (map UserSchema.username (users db)) ->
  UserSchema.username d <> ""%string ->
  UserSchema.password d <> ""%string ->
  valid_db (mkDb (users db ++ [d]) (items db)).
Proof.
  intros [Hi Hu Hn Hf Hp] Hid Hname Hne Hpw. split; simpl; trivial.
  - rewrite map_app. now apply NoDup_snoc.
  - rewrite map_app. now apply NoDup_snoc.
  - apply Forall_app. split; [exact Hp|]. constructor; [now split|constructor].
Qed.

Lemma valid_add_item db i :
  valid_db db ->
  ~ In (ItemSchema._id i) (map ItemSchema._id (items db)) ->
  ItemSchema.name i <> ""%string ->
  is_text (ItemSchema.description i) = true ->
  valid_db (mkDb (users db) (items db ++ [i])).
Proof.
  intros [Hi Hu Hn Hf Hp] Hid Hne Ht. split; simpl; trivial.
  - rewrite map_app. now apply NoDup_snoc.
  - apply Forall_app. split; [exact Hf|]. constructor; [now split|constructor].
Qed.

Lemma valid_replace_item db i l :
  valid_db db ->
  Item.replaceOne i (items db) = Some l ->
  ItemSchema.name i <> ""%string ->
  is_text (ItemSchema.description i) = true ->
  valid_db (mkDb (users db) l).
Proof.
  intros [Hi Hu Hn Hf Hp] R Hne Ht. split; simpl; trivial.
  - now rewrite (replaceOne_ids i _ _ R).
  - apply (replaceOne_Forall i _ _ _ R); [now split|exact Hf].
Qed.

Lemma valid_remove_item db oid :
  valid_db db -> valid_db (mkDb (users db) (Item.removeOne oid (items db))).
Proof.
  intros [Hi Hu Hn Hf Hp]. split; simpl; trivial.
  - now apply removeOne_NoDup.
  - now apply removeOne_Forall.
Qed.

Lemma register_valid env b db : valid_db db -> valid_db (snd (register env b db)).
Proof.
  intros V. destruct (register env b db) as [r db'] eqn:E. simpl.
  apply try_catch_inv in E as [E|(e & _ & _ & ->)]; [|exact V].
  unfold registerBody, bind in E.
  destruct (User.findOne env db (username b)) as [e|[u|]]; try discriminate.
  - now injection E as _ <-.
  - destruct (hash (password b) (salt env)) as [e|h]; [discriminate|].
    destruct (User.save env db _ _) as [e|[d db1]] eqn:S; [discriminate|].
    injection E as _ <-. simpl.
    apply user_save_inv in S as (Vd & _ & Hid & Hname & ->).
    apply validateUser_inv in Vd as (s & k & _ & Hs & _ & Hk & ->).
    now apply valid_add_user.
Qed.

Lemma login_keeps env b db : snd (login env b db) = db.
Proof.
  unfold login, loginBody, bind.
  destruct (User.findOne env db (username b)) as [e|[u|]]; try reflexivity.
  destruct (compare (password b) (UserSchema.password u)) as [e|[|]];
    reflexivity.
Qed.

Lemma listItems_keeps env req db : snd (listItems env req db) = db.
Proof.
  unfold listItems, listItemsBody, bind.
  now destruct (Item.find env db).
Qed.

Lemma createItem_valid env req db :
  valid_db db -> valid_db (snd (createItem env req db)).
Proof.
  intros V. destruct (createItem env req db) as [r db'] eqn:E. simpl.
  apply try_catch_inv in E as [E|(e & _ & _ & ->)]; [|exact V].
  unfold createItemBody, bind in E.
  destruct (Item.insert env db _) as [e|[i db1]] eqn:S; [discriminate|].
  injection E as _ <-. simpl.
  apply item_insert_inv in S as (C & _ & Hid & ->).
  unfold Item.create in C.
  apply validateItem_inv in C as (s & k & _ & Hs & _ & ->).
  apply valid_add_item; simpl; trivial. apply castString_text.
Qed.

Lemma updateItem_valid env req db :
  valid_db db -> valid_db (snd (updateItem env req db)).
Proof.
  intros V. destruct (updateItem env req db) as [r db'] eqn:E. simpl.
  apply try_catch_inv in E as [E|(e & _ & _ & ->)]; [|exact V].
  unfold updateItemBody, bind in E.
  destruct (Item.findById env db (params_id req)) as [e|[it|]];
    try discriminate.
  - destruct (Item.update env db _) as [e|[i db1]] eqn:S; [discriminate|].
    injection E as _ <-. simpl.
    apply item_update_inv in S as (A & _ & l & R & ->).
    apply assign_inv in A as (_ & Hn & Ht & _).
    now apply (valid_replace_item db i l).
  - now injection E as _ <-.
Qed.

Lemma deleteItem_valid env req db :
  valid_db db -> valid_db (snd (deleteItem env req db)).
Proof.
  intros V. destruct (deleteItem env req db) as [r db'] eqn:E. simpl.
  apply try_catch_inv in E as [E|(e & _ & _ & ->)]; [|exact V].
  unfold deleteItemBody, bind in E.
  destruct (Item.findById env db (params_id req)) as [e|[it|]];
    try discriminate.
  - unfold Item.deleteOne, bind in E.
    destruct (store env); [discriminate|].
    injection E as _ <-. now apply valid_remove_item.
  - now injection E as _ <-.
Qed.

Lemma handler_valid op env req db :
  valid_db db -> valid_db (snd (handler op env req db)).
Proof.
  destruct op; simpl; intros V.
  - now rewrite listItems_keeps.
  - now apply createItem_valid.
  - now apply updateItem_valid.
  - now apply deleteItem_valid.
Qed.

Lemma serve_valid env c db : valid_db db -> valid_db (snd (serve env c db)).
Proof.
  destruct c as [b|b|op req]; simpl; intros V.
  - now apply register_valid.
  - now rewrite login_keeps.
  - unfold route. destruct (authenticateToken env req); [exact V|].
    now apply handler_valid.
Qed.

(** Every database the API can bring about is valid. *)
Lemma reachable_valid db : reachable db -> valid_db db.
Proof.
  induction 1 as [|env c db _ IH]; [apply emptyDb_valid|now apply serve_valid].
Qed.
End Invariant.

(** ** The item service *)

Section ItemFacts.
Context {P : Platform}.

Lemma stored_item_valid db oid it :
  valid_db db -> itemOf db oid = Some it -> valid_item it.
Proof.
  intros V H. apply find_has_id in H as [_ Hin].
  exact (proj1 (Forall_forall _ _) (items_valid db V) it Hin).
Qed.

(** The update route, outcome by outcome. *)
Lemma updateItem_malformed env req db :
  castObjectId (params_id req) = None ->
  updateItem env req db =
    (serverError (CastError "_id" (params_id req)), db).
Proof.
  intros C. unfold updateItem, updateItemBody.
  now rewrite (findById_malformed env db _ C).
Qed.

Lemma updateItem_down env req db oid m :
  castObjectId (params_id req) = Some oid -> fault env = Some m ->
  updateItem env req db = (serverError (StorageFault m), db).
Proof.
  intros C F. unfold updateItem, updateItemBody, Item.findById.
  now rewrite C, (store_down env m F).
Qed.

Lemma updateItem_missing env req db oid :
  castObjectId (params_id req) = Some oid -> fault env = None ->
  itemOf db oid = None ->
  updateItem env req db = (mkResponse 404 (JMessage "Item not found"), db).
Proof.
  intros C F H. unfold updateItem, updateItemBody.
  now rewrite (findById_up env db _ oid C F), H.
Qed.

Lemma updateItem_invalid env req db oid it e :
  castObjectId (params_id req) = Some oid -> fault env = None ->
  itemOf db oid = Some it ->
  assign env (body req) it = inl e ->
  updateItem env req db = (serverError e, db).
Proof.
  intros C F H A. unfold updateItem, updateItemBody.
  rewrite (findById_up env db _ oid C F), H. simpl.
  unfold Item.update. now rewrite A.
Qed.

Lemma updateItem_saved env req db oid it i :
  castObjectId (params_id req) = Some oid -> fault env = None ->
  itemOf db oid = Some it ->
  assign env (body req) it = inr i ->
  exists l,
    Item.replaceOne i (items db) = Some l /\
    updateItem env req db = (mkResponse 200 (JItem i), mkDb (users db) l).
Proof.
  intros C F H A.
  assert (Hid : ItemSchema._id i = oid).
  { apply assign_inv in A as (-> & _). now apply find_has_id in H. }
  destruct (replaceOne_found i (items db) it) as [l R].
  { now rewrite Hid. }
  exists l. split; [exact R|].
  unfold updateItem, updateItemBody.
  rewrite (findById_up env db _ oid C F), H. simpl.
  unfold Item.update. rewrite A. simpl. now rewrite (store_up env F), R.
Qed.

(** A 200 from the update route can only be the last of these. *)
Lemma updateItem_success env req db :
  status (fst (updateItem env req db)) = 200 ->
  exists oid it i l,
    castObjectId (params_id req) = Some oid /\ fault env = None /\
    itemOf db oid = Some it /\ assign env (body req) it = inr i /\
    Item.replaceOne i (items db) = Some l /\
    updateItem env req db = (mkResponse 200 (JItem i), mkDb (users db) l).
Proof.
  destruct (castObjectId (params_id req)) as [oid|] eqn:C.
  2:{ rewrite (updateItem_malformed env req db C). discriminate. }
  destruct (fault env) as [m|] eqn:F.
  { rewrite (updateItem_down env req db oid m C F). discriminate. }
  destruct (itemOf db oid) as [it|] eqn:H.
  2:{ rewrite (updateItem_missing env req db oid C F H). discriminate. }
  destruct (assign env (body req) it) as [e|i] eqn:A.
  { rewrite (updateItem_invalid env req db oid it e C F H A). discriminate. }
  destruct (updateItem_saved env req db oid it i C F H A) as (l & R & E).
  intros _. now exists oid, it, i, l.
Qed.

(** What [assign] stores, field by field. *)
Lemma assign_fields env b it i :
  assign env b it = inr i ->
  castString (js_or (name b) (VStr (ItemSchema.name it))) =
    VStr (ItemSchema.name i) /\
  castNumber (match quantity b with
              | VUndefined => VNum (ItemSchema.quantity it)
              | q => q
              end) = Some (VNum (ItemSchema.quantity i)) /\
  ItemSchema.description i =
    castString (js_or (description b) (ItemSchema.description it)) /\
  ItemSchema.lastUpdated i = now env /\
  ItemSchema._id i = ItemSchema._id it.
Proof.
  unfold assign. intros H.
  apply validateItem_inv in H as (s & k & Hn & _ & Hq & ->). simpl.
  now rewrite Hn, Hq.
Qed.

Lemma js_or_falsy a b : truthy a = false -> js_or a b = b.
Proof. unfold js_or. now intros ->. Qed.

(** The delete route, outcome by outcome. *)
Lemma deleteItem_malformed env req db :
  castObjectId (params_id req) = None ->
  deleteItem env req db =
    (serverError (CastError "_id" (params_id req)), db).
Proof.
  intros C. unfold deleteItem, deleteItemBody.
  now rewrite (findById_malformed env db _ C).
Qed.

Lemma deleteItem_down env req db oid m :
  castObjectId (params_id req) = Some oid -> fault env = Some m ->
  deleteItem env req db = (serverError (StorageFault m), db).
Proof.
  intros C F. unfold deleteItem, deleteItemBody, Item.findById.
  now rewrite C, (store_down env m F).
Qed.

Lemma deleteItem_missing env req db oid :
  castObjectId (params_id req) = Some oid -> fault env = None ->
  itemOf db oid = None ->
  deleteItem env req db = (mkResponse 404 (JMessage "Item not found"), db).
Proof.
  intros C F H. unfold deleteItem, deleteItemBody.
  now rewrite (findById_up env db _ oid C F), H.
Qed.

Lemma deleteItem_removed env req db oid it :
  castObjectId (params_id req) = Some oid -> fault env = None ->
  itemOf db oid = Some it ->
  deleteItem env req db =
    (mkResponse 200 (JMessage "Item removed successfully"),
     mkDb (users db) (Item.removeOne oid (items db))).
Proof.
  intros C F H. unfold deleteItem, deleteItemBody.
  rewrite (findById_up env db _ oid C F), H. simpl.
  unfold Item.deleteOne. rewrite (store_up env F). simpl.
  now destruct (find_has_id oid _ _ H) as [-> _].
Qed.

Lemma deleteItem_success env req db :
  status (fst (deleteItem env req db)) = 200 ->
  exists oid it,
    castObjectId (params_id req) = Some oid /\ fault env = None /\
    itemOf db oid = Some it /\
    deleteItem env req db =
      (mkResponse 200 (JMessage "Item removed successfully"),
       mkDb (users db) (Item.removeOne oid (items db))).
Proof.
  destruct (castObjectId (params_id req)) as [oid|] eqn:C.
  2:{ rewrite (deleteItem_malformed env req db C). discriminate. }
  destruct (fault env) as [m|] eqn:F.
  { rewrite (deleteItem_down env req db oid m C F). discriminate. }
  destruct (itemOf db oid) as [it|] eqn:H.
  2:{ rewrite (deleteItem_missing env req db oid C F H). discriminate. }
  intros _. exists oid, it. repeat split; trivial.
  now apply (deleteItem_removed env req db oid it).
Qed.
End ItemFacts.

(** ** Updating an item *)

Section UpdateFacts.
Context {P : Platform}.

(** An update that names only a quantity is always accepted. *)
Lemma assign_quantity_only env b it q :
  valid_item it ->
  truthy (name b) = false -> truthy (description b) = false ->
  quantity b = VNum q ->
  assign env b it =
    ret (ItemSchema.mk (ItemSchema._id it) (ItemSchema.name it) q
                       (ItemSchema.description it) (now env)).
Proof.
  intros [Hn Ht] Tn Td Q. unfold assign.
  rewrite Q, (js_or_falsy _ _ Tn), (js_or_falsy _ _ Td). simpl.
  rewrite (castString_stable _ Ht). now apply validateItem_ok.
Qed.

Lemma assign_keeps_name env b it i :
  assign env b it = inr i -> truthy (name b) = false ->
  ItemSchema.name i = ItemSchema.name it.
Proof.
  intros A T. apply assign_fields in A as (Hn & _).
  rewrite (js_or_falsy _ _ T) in Hn. simpl in Hn. congruence.
Qed.

Lemma assign_keeps_description env b it i :
  assign env b it = inr i -> valid_item it ->
  truthy (description b) = false ->
  ItemSchema.description i = ItemSchema.description it.
Proof.
  intros A [_ Ht] T. apply assign_fields in A as (_ & _ & -> & _).
  rewrite (js_or_falsy _ _ T). now apply castString_stable.
Qed.

Lemma assign_keeps_quantity env b it i :
  assign env b it = inr i -> quantity b = VUndefined ->
  ItemSchema.quantity i = ItemSchema.quantity it.
Proof.
  intros A Q. apply assign_fields in A as (_ & Hq & _).
  rewrite Q in Hq. simpl in Hq. congruence.
Qed.

Lemma assign_takes_quantity env b it i :
  assign env b it = inr i -> quantity b <> VUndefined ->
  castNumber (quantity b) = Some (VNum (ItemSchema.quantity i)).
Proof.
  intros A Q. apply assign_fields in A as (_ & Hq & _).
  destruct (quantity b); try exact Hq. now elim Q.
Qed.
End UpdateFacts.

(** C2.  For an existing (valid) item and any update request, the item is
    still stored under its id afterwards, and: a falsy or absent [name]
    leaves the name unchanged, a falsy or absent [description] leaves the
    description unchanged (so an explicit empty string clears neither);
    an absent [quantity] leaves the quantity unchanged; when the update
    succeeds the answer is the stored item, its [lastUpdated] is the update
    time, and a [quantity] that was given (anything but [undefined]) has
    been applied through the [Number] cast; in particular an update with a
    numeric quantity, zero included, and no name or description succeeds
    and changes the quantity and [lastUpdated] only. *)
Theorem partial_update_policy
    {P : Platform} (env : Env) (req : Request) (db : Db)
    (oid : ObjectId) (it : ItemSchema.doc) :
  castObjectId (params_id req) = Some oid ->
  itemOf db oid = Some it ->
  valid_item it ->
  exists it',
    itemOf (snd (updateItem env req db)) oid = Some it' /\
    (truthy (name (body req)) = false ->
     ItemSchema.name it' = ItemSchema.name it) /\
    (truthy (description (body req)) = false ->
     ItemSchema.description it' = ItemSchema.description it) /\
    (quantity (body req) = VUndefined ->
     ItemSchema.quantity it' = ItemSchema.quantity it) /\
    (status (fst (updateItem env req db)) = 200 ->
     json (fst (updateItem env req db)) = JItem it' /\
     ItemSchema.lastUpdated it' = now env /\
     (quantity (body req) <> VUndefined ->
      castNumber (quantity (body req)) =
        Some (VNum (ItemSchema.quantity it')))) /\
    (forall q,
       fault env = None ->
       truthy (name (body req)) = false ->
       truthy (description (body req)) = false ->
       quantity (body req) = VNum q ->
       fst (updateItem env req db) =
         mkResponse 200
           (JItem (ItemSchema.mk oid (ItemSchema.name it) q
                                 (ItemSchema.description it) (now env))) /\
       it' = ItemSchema.mk oid (ItemSchema.name it) q
                           (ItemSchema.description it) (now env)).
Proof.
  intros C H V.
  assert (Hoid : ItemSchema._id it = oid) by now apply find_has_id in H.
  destruct (fault env) as [m|] eqn:F.
  { rewrite (updateItem_down env req db oid m C F). simpl.
    exists it. repeat split; trivial; discriminate. }
  destruct (assign env (body req) it) as [e|i] eqn:A.
  - rewrite (updateItem_invalid env req db oid it e C F H A). simpl.
    exists it. repeat split; trivial; try discriminate;
      rewrite (assign_quantity_only env _ it q V) in A by assumption;
      discriminate.
  - destruct (updateItem_saved env req db oid it i C F H A) as (l & R & E).
    rewrite E. simpl. exists i.
    assert (Hi : ItemSchema._id i = oid).
    { apply assign_inv in A as (-> & _). exact Hoid. }
    split.
    { unfold itemOf. simpl. rewrite <- Hi. exact (replaceOne_find i (items db) l R). }
    split; [now apply (assign_keeps_name env)|].
    split; [now apply (assign_keeps_description env)|].
    split; [now apply (assign_keeps_quantity env)|].
    split.
    { intros _. split; [reflexivity|]. split.
      - now apply assign_inv in A.
      - now apply (assign_takes_quantity env _ it). }
    intros q _ Tn Td Q.
    rewrite (assign_quantity_only env _ it q V Tn Td Q) in A.
    injection A as <-. rewrite Hoid. now split.
Qed.

Lemma partial_update_policy_witness :
  exists it',
    itemOf (snd (@updateItem Ref.platform Ref.env1 Ref.zeroed Ref.db1)) 1 =
      Some it' /\
    ItemSchema.name it' = "Widget"%string /\
    ItemSchema.description it' = VStr "A small widget" /\
    ItemSchema.quantity it' = 0 /\
    ItemSchema.lastUpdated it' = 5000 /\
    fst (@updateItem Ref.platform Ref.env1 Ref.zeroed Ref.db1) =
      mkResponse 200 (JItem it').
Proof.
  destruct (@partial_update_policy Ref.platform Ref.env1 Ref.zeroed Ref.db1
              1%N Ref.widget)
    as (it' & Hs & Hn & Hd & _ & _ & Hq).
  - reflexivity.
  - reflexivity.
  - split; [discriminate|reflexivity].
  - destruct (Hq 0 eq_refl eq_refl eq_refl eq_refl) as [Hr ->].
    exists (ItemSchema.mk 1 "Widget" 0 (VStr "A small widget") 5000).
    repeat split; trivial.
Defined.

(** C10.  A successful update (a 200 from the update route) writes one
    item and nothing else: the item it answers with is the one now stored
    under the id of the request, the ids of the collection are what they
    were, position by position, every item of another id is unchanged, and
    the users are unchanged. *)
Theorem update_frame
    {P : Platform} (env : Env) (req : Request) (db : Db) :
  status (fst (updateItem env req db)) = 200 ->
  exists oid it',
    castObjectId (params_id req) = Some oid /\
    json (fst (updateItem env req db)) = JItem it' /\
    ItemSchema._id it' = oid /\
    itemOf (snd (updateItem env req db)) oid = Some it' /\
    map ItemSchema._id (items (snd (updateItem env req db))) =
      map ItemSchema._id (items db) /\
    filter (fun x => negb (Item.has_id oid x))
           (items (snd (updateItem env req db))) =
      filter (fun x => negb (Item.has_id oid x)) (items db) /\
    users (snd (updateItem env req db)) = users db.
Proof.
  intros S.
  destruct (updateItem_success env req db S)
    as (oid & it & i & l & C & F & H & A & R & E).
  rewrite E. simpl. exists oid, i.
  assert (Hi : ItemSchema._id i = oid).
  { apply assign_inv in A as (-> & _). now apply find_has_id in H. }
  repeat split; trivial.
  - unfold itemOf. simpl. rewrite <- Hi.
    exact (replaceOne_find i (items db) l R).
  - exact (replaceOne_ids i (items db) l R).
  - rewrite <- Hi. exact (replaceOne_others i (items db) l R).
Qed.

Lemma update_frame_witness :
  exists it',
    json (fst (@updateItem Ref.platform Ref.env1 Ref.zeroed Ref.db1)) =
      JItem it' /\
    ItemSchema._id it' = 1%N /\
    map ItemSchema._id
        (items (snd (@updateItem Ref.platform Ref.env1 Ref.zeroed Ref.db1))) =
      [1%N; 2%N] /\
    filter (fun x => negb (Item.has_id 1 x))
           (items (snd (@updateItem Ref.platform Ref.env1 Ref.zeroed Ref.db1))) =
      [Ref.gadget] /\
    users (snd (@updateItem Ref.platform Ref.env1 Ref.zeroed Ref.db1)) =
      [Ref.alice].
Proof.
  destruct (@update_frame Ref.platform Ref.env1 Ref.zeroed Ref.db1)
    as (oid & it' & C & J & Hi & _ & Hids & Hothers & Hu).
  - reflexivity.
  - injection C as <-. exists it'. repeat split; assumption.
Defined.

(** ** Ids that denote no item *)

Lemma db1_valid : valid_db Ref.db1.
Proof.
  split; simpl.
  - repeat constructor; simpl; intuition discriminate.
  - repeat constructor; simpl; intuition discriminate.
  - repeat constructor; simpl; intuition discriminate.
  - repeat constructor; simpl; discriminate.
  - repeat constructor; simpl; discriminate.
Qed.

(** C6, as stated, fails at an id that is no ObjectId: ["abc"] resolves to
    no stored item, yet [findById] rejects with a CastError before any
    lookup, and both routes answer with the generic 500, not with 404. *)
Lemma malformed_id_is_not_notfound :
  (forall oid, @castObjectId Ref.platform "abc" = Some oid ->
               itemOf Ref.db1 oid = None) /\
  @deleteItem Ref.platform Ref.env1 Ref.unparsable Ref.db1 =
    (mkResponse 500 (JError "Server error" (CastError "_id" "abc")),
     Ref.db1) /\
  @updateItem Ref.platform Ref.env1 Ref.unparsable Ref.db1 =
    (mkResponse 500 (JError "Server error" (CastError "_id" "abc")),
     Ref.db1) /\
  status (fst (@deleteItem Ref.platform Ref.env1 Ref.unparsable Ref.db1))
    <> 404 /\
  status (fst (@updateItem Ref.platform Ref.env1 Ref.unparsable Ref.db1))
    <> 404.
Proof.
  repeat split; try reflexivity; try discriminate.
Qed.

(** C6, amended.  When the given id is a well-formed ObjectId under which
    no item is stored, the update and the delete route each answer 404
    "Item not found" and leave the store unchanged.  After a successful
    delete, deleting the same id again answers 404. *)
Theorem missing_item_not_found
    {P : Platform} (env : Env) (req : Request) (db : Db) :
  (forall oid,
     castObjectId (params_id req) = Some oid ->
     itemOf db oid = None ->
     fault env = None ->
     updateItem env req db =
       (mkResponse 404 (JMessage "Item not found"), db) /\
     deleteItem env req db =
       (mkResponse 404 (JMessage "Item not found"), db)) /\
  (forall env',
     valid_db db ->
     status (fst (deleteItem env req db)) = 200 ->
     fault env' = None ->
     deleteItem env' req (snd (deleteItem env req db)) =
       (mkResponse 404 (JMessage "Item not found"),
        snd (deleteItem env req db))).
Proof.
  split.
  - intros oid C H F. split.
    + now apply (updateItem_missing env req db oid).
    + now apply (deleteItem_missing env req db oid).
  - intros env' V S F'.
    destruct (deleteItem_success env req db S) as (oid & it & C & _ & _ & E).
    rewrite E. simpl.
    apply (deleteItem_missing env' req _ oid C F').
    unfold itemOf. simpl.
    apply removeOne_gone. exact (item_ids_unique db V).
Qed.

Lemma missing_item_not_found_witness :
  @updateItem Ref.platform Ref.env1 Ref.stray Ref.db1 =
    (mkResponse 404 (JMessage "Item not found"), Ref.db1) /\
  @deleteItem Ref.platform Ref.env1 Ref.stray Ref.db1 =
    (mkResponse 404 (JMessage "Item not found"), Ref.db1) /\
  @deleteItem Ref.platform Ref.env1 Ref.bare
    (snd (@deleteItem Ref.platform Ref.env1 Ref.bare Ref.db1)) =
    (mkResponse 404 (JMessage "Item not found"),
     snd (@deleteItem Ref.platform Ref.env1 Ref.bare Ref.db1)).
Proof.
  split; [|split].
  - apply (proj1 (@missing_item_not_found
                    Ref.platform Ref.env1 Ref.stray Ref.db1) 9%N);
      reflexivity.
  - apply (proj1 (@missing_item_not_found
                    Ref.platform Ref.env1 Ref.stray Ref.db1) 9%N);
      reflexivity.
  - apply (proj2 (@missing_item_not_found
                    Ref.platform Ref.env1 Ref.bare Ref.db1)).
    + exact db1_valid.
    + reflexivity.
    + reflexivity.
Defined.

(** ** Creating and listing items *)

Section CreateFacts.
Context {P : Platform}.

Lemma listItems_up env req db :
  fault env = None ->
  listItems env req db = (mkResponse 200 (JItems (items db)), db).
Proof.
  intros F. unfold listItems, listItemsBody, Item.find.
  now rewrite (store_up env F).
Qed.

Lemma listItems_down env req db m :
  fault env = Some m ->
  listItems env req db = (serverError (StorageFault m), db).
Proof.
  intros F. unfold listItems, listItemsBody, Item.find.
  now rewrite (store_down env m F).
Qed.

Lemma createItem_invalid env req db e :
  Item.create env (name (body req)) (quantity (body req))
              (description (body req)) = inl e ->
  createItem env req db = (serverError e, db).
Proof.
  intros C. unfold createItem, createItemBody, Item.insert. now rewrite C.
Qed.

Lemma createItem_saved env req db i :
  Item.create env (name (body req)) (quantity (body req))
              (description (body req)) = inr i ->
  fault env = None ->
  ~ In (new_id env) (map ItemSchema._id (items db)) ->
  createItem env req db =
    (mkResponse 201 (JItem i), mkDb (users db) (items db ++ [i])).
Proof.
  intros C F Hid. unfold createItem, createItemBody, Item.insert.
  rewrite C. simpl. rewrite (store_up env F). simpl.
  assert (E : ItemSchema._id i = new_id env).
  { unfold Item.create in C.
    now apply validateItem_inv in C as (s & k & _ & _ & _ & ->). }
  destruct (existsb _ (items db)) eqn:X; [|reflexivity].
  apply existsb_exists in X as (x & Hin & Hx).
  unfold Item.has_id in Hx. apply N.eqb_eq in Hx.
  exfalso. apply Hid. rewrite <- E, <- Hx. now apply in_map.
Qed.

End CreateFacts.




(** ** Registering and logging in *)

Lemma find_snoc {A} (f : A -> bool) (l : list A) (a : A) :
  find f (l ++ [a]) =
    match find f l with
    | Some x => Some x
    | None => if f a then Some a else None
    end.
Proof.
  induction l as [|x l IH]; simpl; [reflexivity|].
  now destruct (f x).
Qed.

Section AuthFacts.
Context {P : Platform}.

Lemma register_duplicate env b db u :
  fault env = None -> userOf db (username b) = Some u ->
  register env b db = (mkResponse 400 (JMessage "User already exists"), db).
Proof.
  intros F H. unfold register, registerBody.
  now rewrite (findOne_up env db _ F), H.
Qed.

Lemma register_saved env b db p :
  fault env = None -> userOf db (username b) = None ->
  password b = VStr p ->
  username b <> ""%string ->
  bcrypt_hash p (salt env) <> ""%string ->
  ~ In (new_id env) (map UserSchema._id (users db)) ->
  register env b db =
    (mkResponse 201 (JMessage "User registered successfully"),
     mkDb (users db ++
           [UserSchema.mk (new_id env) (username b)
                          (bcrypt_hash p (salt env))])
          (items db)).
Proof.
  intros F H Hp Hu Hh Hid. unfold register, registerBody.
  rewrite (findOne_up env db _ F), H. simpl. rewrite Hp. simpl.
  unfold User.save, validateUser. simpl castString.
  rewrite (requiredString_text _ Hu), (requiredString_text _ Hh). simpl.
  rewrite (store_up env F). simpl.
  destruct (existsb _ (users db)) eqn:X1.
  { apply existsb_exists in X1 as (x & Hin & Hx). apply N.eqb_eq in Hx.
    exfalso. apply Hid. rewrite <- Hx. now apply in_map. }
  destruct (existsb _ (users db)) eqn:X2 in |- *; [|reflexivity].
  apply existsb_exists in X2 as (x & Hin & Hx).
  unfold userOf in H. apply (find_none _ _ H) in Hin.
  simpl in Hx. congruence.
Qed.

(** A 201 from the register route means the name was free and the user
    now stored is the last of the collection. *)
Lemma register_success env b db :
  status (fst (register env b db)) = 201 ->
  exists d,
    userOf db (username b) = None /\
    UserSchema.username d = username b /\
    register env b db =
      (mkResponse 201 (JMessage "User registered successfully"),
       mkDb (users db ++ [d]) (items db)).
Proof.
  unfold register, registerBody, User.findOne, bind.
  destruct (store env) as [e|[]]; [discriminate|]. simpl.
  fold (userOf db (username b)).
  destruct (userOf db (username b)) as [u|] eqn:H; [discriminate|].
  destruct (hash (password b) (salt env)) as [e|h]; [discriminate|].
  destruct (User.save env db _ _) as [e|[d db']] eqn:S; [discriminate|].
  simpl. intros _. apply user_save_inv in S as (V & _ & _ & _ & ->).
  apply validateUser_inv in V as (s & k & Hs & _ & _ & _ & ->).
  injection Hs as <-.
  exists (UserSchema.mk (new_id env) (username b) k). now repeat split.
Qed.

Lemma login_unknown env b db :
  fault env = None -> userOf db (username b) = None ->
  login env b db = (mkResponse 400 (JMessage "Invalid credentials"), db).
Proof.
  intros F H. unfold login, loginBody.
  now rewrite (findOne_up env db _ F), H.
Qed.

Lemma login_wrong env b db u p :
  fault env = None -> userOf db (username b) = Some u ->
  password b = VStr p ->
  bcrypt_compare p (UserSchema.password u) = false ->
  login env b db = (mkResponse 400 (JMessage "Invalid credentials"), db).
Proof.
  intros F H Hp W. unfold login, loginBody.
  rewrite (findOne_up env db _ F), H. simpl. rewrite Hp. simpl.
  now rewrite W.
Qed.

Lemma login_right env b db u p :
  fault env = None -> userOf db (username b) = Some u ->
  password b = VStr p ->
  bcrypt_compare p (UserSchema.password u) = true ->
  login env b db =
    (mkResponse 200
       (JToken (jwt_sign (mkPayload (UserSchema._id u) (UserSchema.username u))
                         JWT_SECRET expiresIn (clock env))),
     db).
Proof.
  intros F H Hp W. unfold login, loginBody.
  rewrite (findOne_up env db _ F), H. simpl. rewrite Hp. simpl.
  now rewrite W.
Qed.

(** A password that is no string makes bcryptjs reject, and the route
    answers with the generic 500, but only once a user was found. *)
Lemma login_malformed env b db u :
  fault env = None -> userOf db (username b) = Some u ->
  (forall p, password b <> VStr p) ->
  login env b db = (serverError IllegalArguments, db).
Proof.
  intros F H Hp. unfold login, loginBody.
  rewrite (findOne_up env db _ F), H. simpl.
  destruct (password b); try reflexivity. now elim (Hp s).
Qed.
End AuthFacts.

(** C7.  Registering a username that is already present answers 400 "User
    already exists" (DuplicateUser) and leaves the store as it was, so no
    second record is persisted; hence once a registration has succeeded,
    registering the same username again, with any password, is answered
    that way. *)
Theorem duplicate_user_rejected
    {P : Platform} (env : Env) (b : AuthBody) (db : Db) :
  (forall u,
     fault env = None ->
     userOf db (username b) = Some u ->
     register env b db =
       (mkResponse 400 (JMessage "User already exists"), db)) /\
  (forall env' b',
     status (fst (register env b db)) = 201 ->
     username b' = username b ->
     fault env' = None ->
     register env' b' (snd (register env b db)) =
       (mkResponse 400 (JMessage "User already exists"),
        snd (register env b db))).
Proof.
  split.
  - intros u F H. now apply (register_duplicate env b db u).
  - intros env' b' S Hu F'.
    destruct (register_success env b db S) as (d & Hfree & Hd & E).
    rewrite E. simpl.
    apply (register_duplicate env' b' _ d F').
    unfold userOf. simpl. rewrite find_snoc.
    unfold userOf in Hfree. rewrite Hu, Hfree, Hd.
    now rewrite String.eqb_refl.
Qed.

Lemma duplicate_user_rejected_witness :
  @register Ref.platform Ref.env1 Ref.aliceAgain Ref.db1 =
    (mkResponse 400 (JMessage "User already exists"), Ref.db1) /\
  @register Ref.platform Ref.env1 Ref.bobAgain
    (snd (@register Ref.platform Ref.env1 Ref.bob Ref.db1)) =
    (mkResponse 400 (JMessage "User already exists"),
     snd (@register Ref.platform Ref.env1 Ref.bob Ref.db1)).
Proof.
  split.
  - apply (proj1 (@duplicate_user_rejected
                    Ref.platform Ref.env1 Ref.aliceAgain Ref.db1) Ref.alice);
      reflexivity.
  - apply (proj2 (@duplicate_user_rejected
                    Ref.platform Ref.env1 Ref.bob Ref.db1));
      reflexivity.
Defined.

(** C4.  The login route does not keep its two failures identical for
    every attempt.  It answers the same 400 "Invalid credentials" for an
    unknown username and for a wrong string password, but an attempt that
    carries no password is answered differently: for a stored username
    bcryptjs rejects the missing password and the route answers with the
    generic 500, while for an unknown username it answers 400 "Invalid
    credentials" as before.  The two answers to the same password tell a
    stored username from an unknown one. *)
Lemma missing_password_tells_users_apart :
  userOf Ref.db1 (username Ref.aliceBlank) = Some Ref.alice /\
  userOf Ref.db1 (username Ref.bobBlank) = None /\
  password Ref.aliceBlank = password Ref.bobBlank /\
  @login Ref.platform Ref.env1 Ref.aliceBlank Ref.db1 =
    (mkResponse 500 (JError "Server error" IllegalArguments), Ref.db1) /\
  @login Ref.platform Ref.env1 Ref.bobBlank Ref.db1 =
    (mkResponse 400 (JMessage "Invalid credentials"), Ref.db1) /\
  fst (@login Ref.platform Ref.env1 Ref.aliceBlank Ref.db1) <>
  fst (@login Ref.platform Ref.env1 Ref.bobBlank Ref.db1).
Proof.
  repeat split; try reflexivity. vm_compute. discriminate.
Qed.

(** For login attempts whose password is a string, the answer for a
    username that does not exist and the answer for an existing username
    with a wrong password are the same 400 "Invalid credentials". *)
Lemma login_failures_indistinguishable
    {P : Platform} (env : Env) (db : Db) (b1 b2 : AuthBody)
    (u : UserSchema.doc) (p : string) :
  fault env = None ->
  userOf db (username b1) = None ->
  userOf db (username b2) = Some u ->
  password b2 = VStr p ->
  bcrypt_compare p (UserSchema.password u) = false ->
  login env b1 db = (mkResponse 400 (JMessage "Invalid credentials"), db) /\
  login env b2 db = (mkResponse 400 (JMessage "Invalid credentials"), db) /\
  fst (login env b1 db) = fst (login env b2 db).
Proof.
  intros F H1 H2 Hp W.
  pose proof (login_unknown env b1 db F H1) as L1.
  pose proof (login_wrong env b2 db u p F H2 Hp W) as L2.
  split; [exact L1|]. split; [exact L2|]. now rewrite L1, L2.
Qed.

Lemma login_failures_indistinguishable_witness :
  @login Ref.platform Ref.env1 Ref.bob Ref.db1 =
    (mkResponse 400 (JMessage "Invalid credentials"), Ref.db1) /\
  @login Ref.platform Ref.env1 Ref.aliceAgain Ref.db1 =
    (mkResponse 400 (JMessage "Invalid credentials"), Ref.db1) /\
  fst (@login Ref.platform Ref.env1 Ref.bob Ref.db1) =
  fst (@login Ref.platform Ref.env1 Ref.aliceAgain Ref.db1).
Proof.
  apply (@login_failures_indistinguishable
           Ref.platform Ref.env1 Ref.db1 Ref.bob Ref.aliceAgain Ref.alice
           "looking-glass"%string); reflexivity.
Defined.

(** ** The stand-in platform keeps the libraries' laws *)

Lemma prefix_append (a b : string) : prefix a (a ++ b) = true.
Proof.
  induction a as [|c a IH]; simpl; [now destruct b|].
  destruct (ascii_dec c c) as [_|N]; [exact IH|now elim N].
Qed.

Lemma append_assoc3 (a b c : string) : (a ++ b) ++ c = a ++ b ++ c.
Proof. induction a as [|x a IH]; simpl; [reflexivity|now rewrite IH]. Qed.

Lemma ref_bcrypt_sound : bcrypt_sound Ref.platform.
Proof.
  intros s salt. simpl. split.
  - unfold Ref.bcrypt_compare, Ref.bcrypt_hash.
    rewrite <- (append_assoc3 s Ref.mark salt).
    rewrite <- (append_assoc3 Ref.mark (s ++ Ref.mark) salt).
    apply prefix_append.
  - discriminate.
Qed.

Lemma cut_at (a r : string) :
  lacks Ref.dot a = true -> Ref.cut (a ++ String Ref.dot r) = (a, Some r).
Proof.
  induction a as [|c a IH]; simpl.
  - intros _. reflexivity.
  - intros H. apply andb_true_iff in H as [Hc Ha].
    apply negb_true_iff in Hc. rewrite Hc, (IH Ha). reflexivity.
Qed.

Lemma uint_lacks_dot (d : Decimal.uint) :
  lacks Ref.dot (NilEmpty.string_of_uint d) = true.
Proof. induction d; simpl; trivial. Qed.

Lemma int_lacks_dot (d : Decimal.int) :
  lacks Ref.dot (NilEmpty.string_of_int d) = true.
Proof. destruct d; simpl; apply uint_lacks_dot. Qed.

Lemma ref_jwt_sound : jwt_sound Ref.platform.
Proof.
  intros [id name] secret ttl t t'. simpl.
  unfold Ref.jwt_verify, Ref.jwt_sign. simpl.
  rewrite (cut_at _ _ (uint_lacks_dot _)).
  rewrite (cut_at _ _ (int_lacks_dot _)).
  rewrite (cut_at _ _ (int_lacks_dot _)).
  rewrite NilEmpty.usu, !NilEmpty.isi.
  now rewrite !DecimalZ.of_to, DecimalN.Unsigned.of_to.
Qed.

(** C3.  For a valid pair (a username of positive length that is not
    taken, and a string password), registering the pair succeeds, logging
    in with the same pair then succeeds and returns a token, and
    [jwt.verify] accepts that token any time before its hour is over,
    with claims that carry the username. *)
Theorem register_then_login
    {P : Platform} (env1 env2 : Env) (db : Db) (u p : string) :
  bcrypt_sound P ->
  jwt_sound P ->
  u <> ""%string ->
  userOf db u = None ->
  ~ In (new_id env1) (map UserSchema._id (users db)) ->
  fault env1 = None ->
  fault env2 = None ->
  exists token,
    fst (register env1 (mkAuthBody u (VStr p)) db) =
      mkResponse 201 (JMessage "User registered successfully") /\
    login env2 (mkAuthBody u (VStr p))
          (snd (register env1 (mkAuthBody u (VStr p)) db)) =
      (mkResponse 200 (JToken token),
       snd (register env1 (mkAuthBody u (VStr p)) db)) /\
    forall t,
      t < clock env2 + expiresIn ->
      exists claims,
        jwt_verify token JWT_SECRET t = Some claims /\
        payload_username (claims_user claims) = u.
Proof.
  intros B J Hu Hfree Hid F1 F2.
  destruct (B p (salt env1)) as [Hc Hh].
  rewrite (register_saved env1 (mkAuthBody u (VStr p)) db p
             F1 Hfree eq_refl Hu Hh Hid).
  simpl fst. simpl snd.
  eexists. split; [reflexivity|]. split.
  - apply (login_right env2 _ _
             (UserSchema.mk (new_id env1) u (bcrypt_hash p (salt env1))) p F2);
      trivial.
    unfold userOf in *. simpl. rewrite find_snoc, Hfree. simpl.
    now rewrite String.eqb_refl.
  - intros t Ht. rewrite J. simpl.
    destruct (Z.ltb_spec t (clock env2 + expiresIn)); [|lia].
    eexists. split; reflexivity.
Qed.

Lemma register_then_login_witness :
  exists token,
    fst (@register Ref.platform Ref.env1 Ref.bob Ref.db1) =
      mkResponse 201 (JMessage "User registered successfully") /\
    @login Ref.platform Ref.env1 Ref.bob
      (snd (@register Ref.platform Ref.env1 Ref.bob Ref.db1)) =
      (mkResponse 200 (JToken token),
       snd (@register Ref.platform Ref.env1 Ref.bob Ref.db1)) /\
    exists claims,
      @jwt_verify Ref.platform token JWT_SECRET 5 = Some claims /\
      payload_username (claims_user claims) = "bob"%string.
Proof.
  destruct (@register_then_login Ref.platform Ref.env1 Ref.env1 Ref.db1
              "bob"%string "builder"%string)
    as (token & R & L & V).
  - exact ref_bcrypt_sound.
  - exact ref_jwt_sound.
  - discriminate.
  - reflexivity.
  - simpl. intros [H|[]]. discriminate.
  - reflexivity.
  - reflexivity.
  - exists token. split; [exact R|]. split; [exact L|].
    apply V. reflexivity.
Defined.

(** ** Errors at the boundary *)

Ltac split_cases :=
  repeat match goal with
         | |- context [match ?x with _ => _ end] => destruct x eqn:?; simpl
         end.

Section BoundaryFacts.
Context {P : Platform}.

Lemma respond_handler op env req db :
  respond env (Protected op req) db = handler op env req db.
Proof. now destruct op. Qed.

Lemma well_shaped_caught db body :
  (forall r db', body = inr (r, db') -> succeeded r || failed r = true) ->
  succeeded (fst (try_catch db body)) || failed (fst (try_catch db body)) = true.
Proof.
  destruct body as [e|[r db']]; simpl; [reflexivity|].
  intros H. now apply (H r db').
Qed.

Lemma register_shaped env b db :
  succeeded (fst (register env b db)) || failed (fst (register env b db)) = true.
Proof.
  apply well_shaped_caught. intros r db'.
  unfold registerBody, bind. split_cases; intros [= <- <-]; reflexivity.
Qed.

Lemma login_shaped env b db :
  succeeded (fst (login env b db)) || failed (fst (login env b db)) = true.
Proof.
  apply well_shaped_caught. intros r db'.
  unfold loginBody, bind. split_cases; intros [= <- <-]; reflexivity.
Qed.

Lemma handler_shaped op env req db :
  succeeded (fst (handler op env req db)) ||
  failed (fst (handler op env req db)) = true.
Proof.
  destruct op; simpl; apply well_shaped_caught; intros r db'.
  - unfold listItemsBody, bind. split_cases; intros [= <- <-]; reflexivity.
  - unfold createItemBody, bind. split_cases; intros [= <- <-]; reflexivity.
  - unfold updateItemBody, bind. split_cases; intros [= <- <-]; reflexivity.
  - unfold deleteItemBody, bind. split_cases; intros [= <- <-]; reflexivity.
Qed.

Lemma serve_shaped env c db :
  succeeded (fst (serve env c db)) || failed (fst (serve env c db)) = true.
Proof.
  destruct c as [b|b|op req]; simpl.
  - apply register_shaped.
  - apply login_shaped.
  - unfold route. destruct (authenticateToken env req) as [r|req'] eqn:G.
    + unfold authenticateToken in G.
      destruct (bearer (authorization req)) as [token|];
        [destruct (jwt_verify token JWT_SECRET (clock env))|];
        inversion G; reflexivity.
    + apply handler_shaped.
Qed.

(** With the store down, every handler ends in its [catch]; the error is
    the fault itself unless validation or the id cast failed first. *)
Lemma respond_down env c db m :
  fault env = Some m ->
  exists e,
    respond env c db = (serverError e, db) /\
    (e = StorageFault m \/
     (exists model paths, e = ValidationError model paths) \/
     (exists path v, e = CastError path v)) /\
    match c with
    | Register _ | Login _ | Protected ListItems _ => e = StorageFault m
    | _ => True
    end.
Proof.
  intros F. destruct c as [b|b|[| | |] req]; unfold respond; simpl.
  - exists (StorageFault m). unfold registerBody.
    rewrite (findOne_down env db _ m F). simpl. auto.
  - exists (StorageFault m). unfold loginBody.
    rewrite (findOne_down env db _ m F). simpl. auto.
  - exists (StorageFault m). unfold listItemsBody, Item.find.
    rewrite (store_down env m F). simpl. auto.
  - unfold createItemBody, Item.insert, Item.create.
    destruct (validateItem _ _ _ _ _) as [e|i] eqn:V; simpl.
    + exists e. split; [reflexivity|]. split; [|exact I].
      unfold validateItem in V. right. left.
      destruct (requiredString _); destruct (requiredNumber _);
        try discriminate; injection V as <-; eauto.
    + rewrite (store_down env m F). simpl. exists (StorageFault m). auto.
  - unfold updateItemBody, Item.findById.
    destruct (castObjectId (params_id req)); simpl.
    + rewrite (store_down env m F). simpl. exists (StorageFault m). auto.
    + exists (CastError "_id" (params_id req)).
      split; [reflexivity|]. split; [|exact I]. right. right. eauto.
  - unfold deleteItemBody, Item.findById.
    destruct (castObjectId (params_id req)); simpl.
    + rewrite (store_down env m F). simpl. exists (StorageFault m). auto.
    + exists (CastError "_id" (params_id req)).
      split; [reflexivity|]. split; [|exact I]. right. right. eauto.
Qed.
End BoundaryFacts.

(** C8, as stated, fails in its second half: the [catch] of every handler
    copies [err.message] into the result, so a fault of the storage layer
    shows in the answer, and two different faults give two different
    answers. *)
Lemma storage_fault_message_is_exposed :
  listItems (Ref.down "connect ECONNREFUSED 127.0.0.1:27017")
            Ref.bare Ref.db1 =
    (mkResponse 500
       (JError "Server error"
               (StorageFault "connect ECONNREFUSED 127.0.0.1:27017")),
     Ref.db1) /\
  fst (listItems (Ref.down "connect ECONNREFUSED 127.0.0.1:27017")
                 Ref.bare Ref.db1) <>
  fst (listItems (Ref.down "users.findOne() buffering timed out")
                 Ref.bare Ref.db1).
Proof. split; [reflexivity|]. vm_compute. discriminate. Qed.

(** C8, amended.  Every error arising inside a handler's [try] block is
    caught and turned into one result: status 500 with the message "Server
    error" and the error's own message beside it, the store being left as
    it was.  Every answer of the API is a success (200 or 201) or a
    failure with a status among 400, 401, 403, 404 and 500 and a message.
    A fault of the storage layer is reported under that same 500 and
    "Server error", and its own message is part of the result. *)
Theorem errors_are_caught
    {P : Platform} (env : Env) (c : Call) (db : Db) :
  (forall e,
     tryBlock env c db = inl e ->
     respond env c db = (mkResponse 500 (JError "Server error" e), db)) /\
  succeeded (fst (serve env c db)) || failed (fst (serve env c db)) = true /\
  (forall m,
     fault env = Some m ->
     exists e,
       respond env c db = (mkResponse 500 (JError "Server error" e), db) /\
       (e = StorageFault m \/
        (exists model paths, e = ValidationError model paths) \/
        (exists path v, e = CastError path v)) /\
       match c with
       | Register _ | Login _ | Protected ListItems _ => e = StorageFault m
       | _ => True
       end).
Proof.
  split; [|split].
  - intros e H. unfold respond. now rewrite H.
  - apply serve_shaped.
  - intros m F. exact (respond_down env c db m F).
Qed.

Lemma errors_are_caught_witness :
  @respond Ref.platform Ref.env1 (Protected DeleteItem Ref.unparsable)
           Ref.db1 =
    (mkResponse 500 (JError "Server error" (CastError "_id" "abc")),
     Ref.db1) /\
  exists e,
    @respond Ref.platform (Ref.down "connection lost") (Login Ref.bob)
             Ref.db1 =
      (mkResponse 500 (JError "Server error" e), Ref.db1) /\
    e = StorageFault "connection lost".
Proof.
  split.
  - apply (proj1 (@errors_are_caught Ref.platform Ref.env1
                    (Protected DeleteItem Ref.unparsable) Ref.db1)).
    reflexivity.
  - destruct (proj2 (proj2 (@errors_are_caught
                              Ref.platform (Ref.down "connection lost")
                              (Login Ref.bob) Ref.db1))
                "connection lost"%string eq_refl)
      as (e & R & _ & E).
    exists e. now split.
Defined.


(** * Further properties of the backend *)

(** ** The store across calls *)

(** X1.  Whatever sequence of calls the API has served since the store was
    empty, item ids, user ids and usernames are unique, every stored item
    has a non-empty name and a description that is absent, null or a
    string, and every stored user has a non-empty username and a non-empty
    password hash. *)
Theorem reachable_store_invariant {P : Platform} (db : Db) :
  reachable db ->
  NoDup (map ItemSchema._id (items db)) /\
  NoDup (map UserSchema._id (users db)) /\
  NoDup (map UserSchema.username (users db)) /\
  (forall i, In i (items db) ->
             ItemSchema.name i <> ""%string /\
             is_text (ItemSchema.description i) = true) /\
  (forall u, In u (users db) ->
             UserSchema.username u <> ""%string /\
             UserSchema.password u <> ""%string).
Proof.
  intros R. destruct (reachable_valid db R) as [Hi Hu Hn Hf Hp].
  repeat split; trivial.
  - now apply (proj1 (Forall_forall _ _) Hf i).
  - now apply (proj1 (Forall_forall _ _) Hf i).
  - now apply (proj1 (Forall_forall _ _) Hp u).
  - now apply (proj1 (Forall_forall _ _) Hp u).
Qed.

Lemma reachable_store_invariant_witness :
  NoDup (map UserSchema.username
             (users (snd (@serve Ref.platform Ref.env1 (Register Ref.bob)
                            emptyDb)))) /\
  forall u,
    In u (users (snd (@serve Ref.platform Ref.env1 (Register Ref.bob)
                        emptyDb))) ->
    UserSchema.username u <> ""%string /\ UserSchema.password u <> ""%string.
Proof.
  destruct (@reachable_store_invariant Ref.platform
              (snd (@serve Ref.platform Ref.env1 (Register Ref.bob) emptyDb)))
    as (_ & _ & Hn & _ & Hu).
  - apply reachable_serve. apply reachable_empty.
  - split; [exact Hn|exact Hu].
Defined.

Section Atomicity.
Context {P : Platform}.

Lemma caught_keeps db body :
  (forall r db', body = inr (r, db') -> succeeded r = false -> db' = db) ->
  succeeded (fst (try_catch db body)) = false ->
  snd (try_catch db body) = db.
Proof.
  destruct body as [e|[r db']]; simpl; [reflexivity|].
  intros H S. now apply (H r db').
Qed.

Lemma register_atomic env b db :
  succeeded (fst (register env b db)) = false ->
  snd (register env b db) = db.
Proof.
  apply caught_keeps. intros r db'.
  unfold registerBody, bind. split_cases; intros [= <- <-]; simpl;
    trivial; discriminate.
Qed.

Lemma handler_atomic op env req db :
  succeeded (fst (handler op env req db)) = false ->
  snd (handler op env req db) = db.
Proof.
  destruct op; simpl; apply caught_keeps; intros r db'.
  - unfold listItemsBody, bind. split_cases; intros [= <- <-]; trivial.
  - unfold createItemBody, bind. split_cases; intros [= <- <-]; simpl;
      trivial; discriminate.
  - unfold updateItemBody, bind. split_cases; intros [= <- <-]; simpl;
      trivial; discriminate.
  - unfold deleteItemBody, bind. split_cases; intros [= <- <-]; simpl;
      trivial; discriminate.
Qed.

Lemma route_cases op env req db :
  (exists r, authenticateToken env req = Responded r /\
             route op env req db = (r, db) /\
             (r = mkResponse 401 (JMessage "No token provided") \/
              r = mkResponse 403 (JMessage "Token is invalid"))) \/
  (exists token claims,
     bearer (authorization req) = Some token /\
     jwt_verify token JWT_SECRET (clock env) = Some claims /\
     route op env req db =
       handler op env
         (mkRequest (authorization req) (params_id req) (body req)
                    (Some claims)) db).
Proof.
  unfold route, authenticateToken.
  destruct (bearer (authorization req)) as [token|].
  - destruct (jwt_verify token JWT_SECRET (clock env)) as [claims|] eqn:V.
    + right. now exists token, claims.
    + left. eexists. repeat split. now right.
  - left. eexists. repeat split. now left.
Qed.
End Atomicity.

(** X2.  A call that is not answered with 200 or 201 leaves the store
    exactly as it was, whatever went wrong and however far the handler
    got; and logging in or listing the items never changes the store, even
    when they succeed. *)
Theorem unsuccessful_call_keeps_store
    {P : Platform} (env : Env) (c : Call) (db : Db) :
  (succeeded (fst (serve env c db)) = false -> snd (serve env c db) = db) /\
  (forall b, c = Login b -> snd (serve env c db) = db) /\
  (forall req, c = Protected ListItems req -> snd (serve env c db) = db).
Proof.
  split; [|split].
  - destruct c as [b|b|op req]; simpl.
    + apply register_atomic.
    + intros _. apply login_keeps.
    + destruct (route_cases op env req db)
        as [(r & _ & -> & _)|(token & claims & _ & _ & ->)];
        [reflexivity|apply handler_atomic].
  - intros b ->. simpl. apply login_keeps.
  - intros req ->. simpl.
    destruct (route_cases ListItems env req db)
      as [(r & _ & -> & _)|(token & claims & _ & _ & ->)];
      [reflexivity|]. simpl. apply listItems_keeps.
Qed.

Lemma unsuccessful_call_keeps_store_witness :
  snd (@serve Ref.platform Ref.env1 (Protected UpdateItem Demo.broken)
         Ref.db1) = Ref.db1.
Proof.
  apply (proj1 (@unsuccessful_call_keeps_store Ref.platform Ref.env1
                  (Protected UpdateItem Demo.broken) Ref.db1)).
  reflexivity.
Defined.

(** ** What a failure looks like *)

Section FailureTable.
Context {P : Platform}.

Lemma caught_failure db body :
  (forall r db', body = inr (r, db') -> succeeded r = false -> is_failure r) ->
  succeeded (fst (try_catch db body)) = false ->
  is_failure (fst (try_catch db body)).
Proof.
  destruct body as [e|[r db']]; simpl.
  - intros _ _. right. now exists e.
  - intros H S. now apply (H r db').
Qed.

Ltac tabulate :=
  split_cases; intros [= <- <-]; simpl; intros S;
  try discriminate; left; simpl; tauto.

Lemma register_failure env b db :
  succeeded (fst (register env b db)) = false ->
  is_failure (fst (register env b db)).
Proof.
  apply caught_failure. intros r db'. unfold registerBody, bind. tabulate.
Qed.

Lemma login_failure env b db :
  succeeded (fst (login env b db)) = false ->
  is_failure (fst (login env b db)).
Proof.
  apply caught_failure. intros r db'. unfold loginBody, bind. tabulate.
Qed.

Lemma handler_failure op env req db :
  succeeded (fst (handler op env req db)) = false ->
  is_failure (fst (handler op env req db)).
Proof.
  destruct op; simpl; apply caught_failure; intros r db'.
  - unfold listItemsBody, bind. tabulate.
  - unfold createItemBody, bind. tabulate.
  - unfold updateItemBody, bind. tabulate.
  - unfold deleteItemBody, bind. tabulate.
Qed.
End FailureTable.

(** X3.  Every answer that is not a 200 or a 201 is one of six: 400 "User
    already exists", 400 "Invalid credentials", 401 "No token provided",
    403 "Token is invalid", 404 "Item not found", or 500 "Server error"
    with the caught error beside it; so a failure always carries a
    non-empty message, and status and message go together. *)
Theorem failures_are_tabulated
    {P : Platform} (env : Env) (c : Call) (db : Db) :
  succeeded (fst (serve env c db)) = false ->
  (In (status (fst (serve env c db)), json (fst (serve env c db)))
      failure_table \/
   exists e,
     fst (serve env c db) = mkResponse 500 (JError "Server error" e)) /\
  exists m, message (json (fst (serve env c db))) = Some m /\ m <> ""%string.
Proof.
  intros S.
  assert (F : is_failure (fst (serve env c db))).
  { destruct c as [b|b|op req]; simpl in *.
    - now apply register_failure.
    - now apply login_failure.
    - destruct (route_cases op env req db)
        as [(r & _ & E & [-> | ->])|(token & claims & _ & _ & E)];
        rewrite E in *; simpl.
      + left. simpl. tauto.
      + left. simpl. tauto.
      + now apply handler_failure. }
  split; [exact F|].
  destruct F as [F|(e & ->)].
  - destruct (fst (serve env c db)) as [st j]. simpl in *.
    destruct F as [F|[F|[F|[F|[F|[]]]]]]; injection F as _ <-;
      eexists; (split; [reflexivity|discriminate]).
  - eexists. split; [reflexivity|discriminate].
Qed.

Lemma failures_are_tabulated_witness :
  exists m,
    message (json (fst (@serve Ref.platform Ref.env1
                          (Protected DeleteItem Ref.forged) Ref.db1))) =
      Some m /\
    m <> ""%string.
Proof.
  apply (@failures_are_tabulated Ref.platform Ref.env1
           (Protected DeleteItem Ref.forged) Ref.db1).
  reflexivity.
Defined.

(** ** Deleting and creating *)

Lemma removeOne_length (oid : ObjectId) l i :
  find (Item.has_id oid) l = Some i ->
  S (length (Item.removeOne oid l)) = length l.
Proof.
  induction l as [|x l IH]; simpl; [discriminate|].
  destruct (Item.has_id oid x); [reflexivity|].
  intros H. simpl. now rewrite (IH H).
Qed.

Lemma removeOne_last (oid : ObjectId) l i :
  ~ In oid (map ItemSchema._id l) -> ItemSchema._id i = oid ->
  Item.removeOne oid (l ++ [i]) = l.
Proof.
  intros Hin Hi. induction l as [|x l IH]; simpl.
  - unfold Item.has_id. now rewrite Hi, N.eqb_refl.
  - unfold Item.has_id at 1.
    destruct (N.eqb_spec (ItemSchema._id x) oid) as [E|E].
    + exfalso. apply Hin. now left.
    + f_equal. apply IH. intros H. apply Hin. now right.
Qed.

(** X4.  A successful delete (a 200 from the delete route) removes one
    item and nothing else: the collection is one shorter, the items of
    every other id are unchanged and in the same order, the users are
    unchanged, and, ids being unique, no item of that id is left. *)
Theorem delete_removes_one_item
    {P : Platform} (env : Env) (req : Request) (db : Db) :
  status (fst (deleteItem env req db)) = 200 ->
  exists oid,
    castObjectId (params_id req) = Some oid /\
    fst (deleteItem env req db) =
      mkResponse 200 (JMessage "Item removed successfully") /\
    S (length (items (snd (deleteItem env req db)))) = length (items db) /\
    filter (fun x => negb (Item.has_id oid x))
           (items (snd (deleteItem env req db))) =
      filter (fun x => negb (Item.has_id oid x)) (items db) /\
    users (snd (deleteItem env req db)) = users db /\
    (NoDup (map ItemSchema._id (items db)) ->
     itemOf (snd (deleteItem env req db)) oid = None).
Proof.
  intros S.
  destruct (deleteItem_success env req db S) as (oid & it & C & _ & H & E).
  rewrite E. simpl. exists oid. repeat split; trivial.
  - now apply (removeOne_length oid _ it).
  - apply removeOne_others.
  - intros Hnd. unfold itemOf. simpl. now apply removeOne_gone.
Qed.

Lemma delete_removes_one_item_witness :
  items (snd (@deleteItem Ref.platform Ref.env1 Ref.bare Ref.db1)) =
    [Ref.gadget] /\
  users (snd (@deleteItem Ref.platform Ref.env1 Ref.bare Ref.db1)) =
    [Ref.alice].
Proof.
  destruct (@delete_removes_one_item Ref.platform Ref.env1 Ref.bare Ref.db1)
    as (oid & C & _ & _ & _ & Hu & _).
  - reflexivity.
  - split; [reflexivity|exact Hu].
Defined.

Section CreateMore.
Context {P : Platform}.

Lemma createItem_fresh env req db :
  status (fst (createItem env req db)) = 201 ->
  exists i,
    ItemSchema._id i = new_id env /\
    ~ In (new_id env) (map ItemSchema._id (items db)) /\
    createItem env req db =
      (mkResponse 201 (JItem i), mkDb (users db) (items db ++ [i])).
Proof.
  unfold createItem, createItemBody.
  destruct (Item.insert env db _) as [e|[i db']] eqn:S; simpl;
    [discriminate|].
  intros _. apply item_insert_inv in S as (C & _ & Hid & ->).
  unfold Item.create in C.
  apply validateItem_inv in C as (s & k & _ & _ & _ & ->). simpl in *.
  eexists. repeat split; trivial.
Qed.
End CreateMore.

(** X5.  Create, then delete: deleting the id a successful create has just
    assigned succeeds and puts the store back exactly as it was before
    the create. *)
Theorem create_then_delete_restores
    {P : Platform} (env env' : Env) (req req' : Request) (db : Db) :
  status (fst (createItem env req db)) = 201 ->
  castObjectId (params_id req') = Some (new_id env) ->
  fault env' = None ->
  deleteItem env' req' (snd (createItem env req db)) =
    (mkResponse 200 (JMessage "Item removed successfully"), db).
Proof.
  intros S C F.
  destruct (createItem_fresh env req db S) as (i & Hi & Hfresh & E).
  rewrite E. simpl.
  rewrite (deleteItem_removed env' req' _ (new_id env) i C F).
  - simpl. rewrite (removeOne_last _ _ i Hfresh Hi). now destruct db.
  - unfold itemOf. simpl. rewrite find_snoc, (find_absent _ _ Hfresh).
    unfold Item.has_id. now rewrite Hi, N.eqb_refl.
Qed.

Lemma create_then_delete_restores_witness :
  @deleteItem Ref.platform Ref.env1 Demo.third
    (snd (@createItem Ref.platform Ref.env1 Ref.fiveWidgets Ref.db1)) =
    (mkResponse 200 (JMessage "Item removed successfully"), Ref.db1).
Proof.
  apply (@create_then_delete_restores Ref.platform Ref.env1 Ref.env1
           Ref.fiveWidgets Demo.third Ref.db1); reflexivity.
Defined.

(** X6.  The create route checks neither the sign of the quantity nor the
    name against the names in use: any integer quantity a JavaScript
    number holds exactly (up to [Number.MAX_SAFE_INTEGER] in absolute
    value), negative ones included, and any non-empty name, one already
    taken included, is stored as given (with a fresh id and a store that
    answers). *)
Theorem create_is_unrestricted
    {P : Platform} (env : Env) (req : Request) (db : Db)
    (s : string) (q : Z) :
  name (body req) = VStr s ->
  s <> ""%string ->
  quantity (body req) = VNum q ->
  Z.abs q <= MAX_SAFE_INTEGER ->
  fault env = None ->
  ~ In (new_id env) (map ItemSchema._id (items db)) ->
  createItem env req db =
    (mkResponse 201
       (JItem (ItemSchema.mk (new_id env) s q
                 (castString (description (body req))) (now env))),
     mkDb (users db)
          (items db ++
           [ItemSchema.mk (new_id env) s q
              (castString (description (body req))) (now env)])).
Proof.
  intros Hn Hs Hq _ F Hid. apply createItem_saved; trivial.
  unfold Item.create. rewrite Hn, Hq. simpl. now apply validateItem_ok.
Qed.

Lemma create_is_unrestricted_witness :
  In Ref.widget (items Ref.db1) /\
  @createItem Ref.platform Ref.env1 Demo.owed Ref.db1 =
    (mkResponse 201
       (JItem (ItemSchema.mk 3 "Widget" (-4) VUndefined 5000)),
     mkDb [Ref.alice]
          [Ref.widget; Ref.gadget;
           ItemSchema.mk 3 "Widget" (-4) VUndefined 5000]).
Proof.
  split; [now left|].
  apply (@create_is_unrestricted Ref.platform Ref.env1 Demo.owed Ref.db1
           "Widget"%string (-4)); try reflexivity; try discriminate.
  simpl. intros [H|[H|[]]]; discriminate.
Defined.

(** ** From login to the protected routes *)

Section TokenFacts.
Context {P : Platform}.



Lemma bearer_second (w1 w2 rest : string) :
  lacks space w1 = true -> lacks space w2 = true ->
  bearer (Some (w1 ++ String space (w2 ++ String space rest))) = Some w2.
Proof.
  intros H1 H2. unfold bearer.
  now rewrite append_mark_nonempty, (split_at _ _ _ H1), (split_at _ _ _ H2).
Qed.

Lemma handler_reads_id_and_body op env a1 a2 id b u1 u2 db :
  handler op env (mkRequest a1 id b u1) db =
  handler op env (mkRequest a2 id b u2) db.
Proof. now destruct op. Qed.
End TokenFacts.



(** X8.  The handlers never look at [req.user]: two requests that pass the
    gate with tokens of two different users and carry the same id and the
    same body get the same answer and leave the same store.  Any
    authenticated user reads, changes and deletes every item. *)
Theorem items_are_shared_among_users
    {P : Platform} (op : ItemOp) (env : Env) (req1 req2 : Request) (db : Db)
    (t1 t2 : string) (c1 c2 : Claims) :
  bearer (authorization req1) = Some t1 ->
  jwt_verify t1 JWT_SECRET (clock env) = Some c1 ->
  bearer (authorization req2) = Some t2 ->
  jwt_verify t2 JWT_SECRET (clock env) = Some c2 ->
  params_id req1 = params_id req2 ->
  body req1 = body req2 ->
  route op env req1 db = route op env req2 db.
Proof.
  intros B1 V1 B2 V2 Hid Hb. unfold route.
  rewrite (gate_accepted env req1 t1 c1 B1 V1).
  rewrite (gate_accepted env req2 t2 c2 B2 V2).
  rewrite Hid, Hb. apply handler_reads_id_and_body.
Qed.

Lemma items_are_shared_among_users_witness :
  @route Ref.platform DeleteItem Ref.env1 Ref.signed Ref.db1 =
  @route Ref.platform DeleteItem Ref.env1 Demo.signedByBob Ref.db1.
Proof.
  apply (@items_are_shared_among_users Ref.platform DeleteItem Ref.env1
           Ref.signed Demo.signedByBob Ref.db1
           (Ref.aliceToken 0) Demo.bobToken
           Ref.aliceClaims Demo.bobClaims); reflexivity.
Defined.

(** ** The header the gate reads *)

Lemma split_has_second (c : ascii) (s : string) :
  lacks c s = false -> exists a b r, split c s = a :: b :: r.
Proof.
  induction s as [|x s IH]; simpl; [discriminate|].
  destruct (Ascii.eqb x c) eqn:E; simpl.
  - intros _. destruct s as [|y s]; simpl; [now exists ""%string, ""%string, []|].
    destruct (Ascii.eqb y c).
    + eexists _, _, _. reflexivity.
    + destruct (split c s) as [|w ws]; eexists _, _, _; reflexivity.
  - intros H. destruct (IH H) as (a & b & r & ->).
    now exists (String x a), b, r.
Qed.

Section HeaderFacts.
Context {P : Platform}.

Lemma bearer_none_iff h :
  bearer (Some h) = None <-> h <> ""%string /\ lacks space h = true.
Proof.
  unfold bearer. split.
  - destruct (String.eqb_spec h "") as [->|Hne]; [discriminate|].
    intros H. split; [exact Hne|].
    destruct (lacks space h) eqn:L; [reflexivity|].
    destruct (split_has_second space h L) as (a & b & r & E).
    rewrite E in H. discriminate.
  - intros [Hne L]. now rewrite (eqb_empty_false h Hne), (split_lacks _ _ L).
Qed.
End HeaderFacts.

(** X9.  The gate answers 401 "No token provided" exactly when the request
    has no Authorization header or has one that is non-empty and contains
    no space; every other header (the empty one, and any header with a
    space in it) is handed to [jwt.verify]. *)
Theorem unauthenticated_iff_no_second_word
    {P : Platform} (env : Env) (req : Request) :
  authenticateToken env req =
    Responded (mkResponse 401 (JMessage "No token provided")) <->
  authorization req = None \/
  exists h, authorization req = Some h /\ h <> ""%string /\
            lacks space h = true.
Proof.
  split.
  - unfold authenticateToken.
    destruct (authorization req) as [h|] eqn:A; [|now left].
    destruct (bearer (Some h)) as [t|] eqn:B.
    + destruct (jwt_verify t JWT_SECRET (clock env)); discriminate.
    + intros _. right. exists h. split; [reflexivity|].
      now apply bearer_none_iff.
  - intros [A|(h & A & Hne & L)]; apply gate_no_token; rewrite A.
    + reflexivity.
    + now apply bearer_none_iff.
Qed.

(** X10.  The token the gate verifies is what stands between the first and
    the second space of the header: whatever follows a second space is
    ignored, so "Bearer <token> <anything>" is let through on <token>
    alone. *)
Theorem gate_reads_second_word_only
    {P : Platform} (env : Env) (req : Request)
    (scheme token rest : string) (claims : Claims) :
  lacks space scheme = true ->
  lacks space token = true ->
  authorization req =
    Some (scheme ++ String space (token ++ String space rest)) ->
  jwt_verify token JWT_SECRET (clock env) = Some claims ->
  authenticateToken env req =
    Next (mkRequest (authorization req) (params_id req) (body req)
                    (Some claims)).
Proof.
  intros Hs Ht Ha V. apply (gate_accepted env req token claims); [|exact V].
  rewrite Ha. now apply bearer_second.
Qed.

Lemma gate_reads_second_word_only_witness :
  @authenticateToken Ref.platform Ref.env1 Demo.trailing =
    Next (mkRequest (authorization Demo.trailing) Ref.id1 Ref.noBody
                    (Some Ref.aliceClaims)).
Proof.
  apply (@gate_reads_second_word_only Ref.platform Ref.env1 Demo.trailing
           "Bearer"%string (Ref.aliceToken 0) "and more words"%string);
    reflexivity.
Defined.

(** ** Malformed input *)

(** X11.  An id that is no ObjectId never reaches the store: the update
    and the delete route answer it with 500 "Server error" (the cast
    error beside it), whatever the body, and leave the store unchanged. *)
Theorem malformed_id_is_server_error
    {P : Platform} (env : Env) (req : Request) (db : Db) :
  castObjectId (params_id req) = None ->
  updateItem env req db =
    (mkResponse 500 (JError "Server error" (CastError "_id" (params_id req))),
     db) /\
  deleteItem env req db =
    (mkResponse 500 (JError "Server error" (CastError "_id" (params_id req))),
     db).
Proof.
  intros C. split.
  - now apply updateItem_malformed.
  - now apply deleteItem_malformed.
Qed.

Lemma malformed_id_is_server_error_witness :
  @updateItem Ref.platform Ref.env1 Ref.unparsable Ref.db1 =
    (mkResponse 500 (JError "Server error" (CastError "_id" "abc")), Ref.db1).
Proof.
  apply (@malformed_id_is_server_error Ref.platform Ref.env1 Ref.unparsable
           Ref.db1).
  reflexivity.
Defined.

(** X12.  Registration stores nothing for an empty username or a password
    that is not a string: with the name free and the store answering, a
    non-string password is answered 500 before anything is saved (bcryptjs
    rejects it), and an empty username with a string password is answered
    500 with a validation error on [username]. *)
Theorem register_rejects_malformed_credentials
    {P : Platform} (env : Env) (b : AuthBody) (db : Db) :
  fault env = None ->
  userOf db (username b) = None ->
  ((forall p, password b <> VStr p) ->
   register env b db =
     (mkResponse 500 (JError "Server error" IllegalArguments), db)) /\
  (forall p,
     password b = VStr p -> username b = ""%string ->
     exists paths,
       register env b db =
         (mkResponse 500
            (JError "Server error" (ValidationError "User" paths)), db) /\
       In "username"%string paths).
Proof.
  intros F H. split.
  - intros Hp. unfold register, registerBody.
    rewrite (findOne_up env db _ F), H. simpl.
    destruct (password b); try reflexivity. now elim (Hp s).
  - intros p Hp Hu. unfold register, registerBody.
    rewrite (findOne_up env db _ F), H. simpl. rewrite Hp, Hu. simpl.
    unfold User.save, validateUser. simpl.
    destruct (bcrypt_hash p (salt env) =? "")%string;
      eexists; (split; [reflexivity|now left]).
Qed.

Lemma register_rejects_malformed_credentials_witness :
  @register Ref.platform Ref.env1 Ref.bobBlank Ref.db1 =
    (mkResponse 500 (JError "Server error" IllegalArguments), Ref.db1) /\
  exists paths,
    @register Ref.platform Ref.env1 Demo.nobody Ref.db1 =
      (mkResponse 500 (JError "Server error" (ValidationError "User" paths)),
       Ref.db1) /\
    In "username"%string paths.
Proof.
  split.
  - apply (proj1 (@register_rejects_malformed_credentials
                    Ref.platform Ref.env1 Ref.bobBlank Ref.db1
                    eq_refl eq_refl)).
    discriminate.
  - apply (proj2 (@register_rejects_malformed_credentials
                    Ref.platform Ref.env1 Demo.nobody Ref.db1
                    eq_refl eq_refl) "secret"%string); reflexivity.
Defined.

(** X13.  A login whose password is not a string (absent, null, a number)
    is answered 500 "Server error" when the username is stored, because
    bcryptjs rejects the comparison, and 400 "Invalid credentials" when it
    is not; neither changes the store. *)
Theorem login_without_string_password
    {P : Platform} (env : Env) (b : AuthBody) (db : Db) :
  fault env = None ->
  (forall p, password b <> VStr p) ->
  login env b db =
    match userOf db (username b) with
    | Some _ => (mkResponse 500 (JError "Server error" IllegalArguments), db)
    | None => (mkResponse 400 (JMessage "Invalid credentials"), db)
    end.
Proof.
  intros F Hp. destruct (userOf db (username b)) as [u|] eqn:H.
  - now apply (login_malformed env b db u).
  - now apply login_unknown.
Qed.

Lemma login_without_string_password_witness :
  @login Ref.platform Ref.env1 Ref.aliceBlank Ref.db1 =
    (mkResponse 500 (JError "Server error" IllegalArguments), Ref.db1) /\
  @login Ref.platform Ref.env1 Ref.bobBlank Ref.db1 =
    (mkResponse 400 (JMessage "Invalid credentials"), Ref.db1).
Proof.
  split.
  - apply (@login_without_string_password Ref.platform Ref.env1
             Ref.aliceBlank Ref.db1); [reflexivity|discriminate].
  - apply (@login_without_string_password Ref.platform Ref.env1
             Ref.bobBlank Ref.db1); [reflexivity|discriminate].
Defined.

Lemma unauthenticated_iff_no_second_word_witness :
  @authenticateToken Ref.platform Ref.env1 Ref.lone =
    Responded (mkResponse 401 (JMessage "No token provided")).
Proof.
  apply (proj2 (@unauthenticated_iff_no_second_word
                  Ref.platform Ref.env1 Ref.lone)).
  right. exists "Bearer"%string.
  split; [reflexivity|]. split; [discriminate|reflexivity].
Defined.

(** ** Updates as a form sends them *)

(** X14.  An update whose name and description are strings and whose
    quantity is a number always succeeds on a stored item: the name is
    replaced unless the new one is empty, the description is replaced
    unless the new one is empty, the quantity is replaced, [lastUpdated]
    becomes the update time and the id stays.  So a description, once
    set, can be changed but not emptied. *)
Theorem update_with_form_fields
    {P : Platform} (env : Env) (req : Request) (db : Db)
    (oid : ObjectId) (it : ItemSchema.doc) (n d : string) (q : Z) :
  castObjectId (params_id req) = Some oid ->
  itemOf db oid = Some it ->
  valid_item it ->
  fault env = None ->
  body req = mkItemBody (VStr n) (VNum q) (VStr d) ->
  fst (updateItem env req db) =
    mkResponse 200
      (JItem (ItemSchema.mk oid
                (if (n =? "")%string then ItemSchema.name it else n)
                q
                (if (d =? "")%string then ItemSchema.description it
                 else VStr d)
                (now env))) /\
  itemOf (snd (updateItem env req db)) oid =
    Some (ItemSchema.mk oid
            (if (n =? "")%string then ItemSchema.name it else n)
            q
            (if (d =? "")%string then ItemSchema.description it else VStr d)
            (now env)).
Proof.
  intros C H [Hn Ht] F Hb.
  assert (Hoid : ItemSchema._id it = oid) by now apply find_has_id in H.
  assert (A : assign env (body req) it =
              inr (ItemSchema.mk oid
                     (if (n =? "")%string then ItemSchema.name it else n) q
                     (if (d =? "")%string then ItemSchema.description it
                      else VStr d)
                     (now env))).
  { unfold assign. rewrite Hb, Hoid. simpl. unfold js_or. simpl.
    destruct (String.eqb_spec n "") as [->|Hne];
      destruct (String.eqb_spec d "") as [->|Hde]; simpl;
      rewrite ?(castString_stable _ Ht); now apply validateItem_ok. }
  destruct (updateItem_saved env req db oid it _ C F H A) as (l & R & E).
  rewrite E. simpl. split; [reflexivity|].
  unfold itemOf. simpl.
  exact (replaceOne_find _ (items db) l R).
Qed.

Lemma update_with_form_fields_witness :
  fst (@updateItem Ref.platform Ref.env1 Demo.blanked Ref.db1) =
    mkResponse 200
      (JItem (ItemSchema.mk 1 "Sprocket" 9 (VStr "A small widget") 5000)).
Proof.
  apply (@update_with_form_fields Ref.platform Ref.env1 Demo.blanked Ref.db1
           1%N Ref.widget "Sprocket"%string ""%string 9); try reflexivity.
  split; [discriminate|reflexivity].
Defined.

(** X15.  An update whose quantity is [null] or the empty string is
    refused: the [Number] cast turns both into [null], the required check
    fails, the route answers 500 with a validation error on [quantity],
    and the stored item keeps its old quantity. *)
Theorem update_needs_a_number
    {P : Platform} (env : Env) (req : Request) (db : Db)
    (oid : ObjectId) (it : ItemSchema.doc) :
  castObjectId (params_id req) = Some oid ->
  itemOf db oid = Some it ->
  fault env = None ->
  quantity (body req) = VNull \/ quantity (body req) = VStr "" ->
  exists paths,
    updateItem env req db =
      (mkResponse 500 (JError "Server error" (ValidationError "Item" paths)),
       db) /\
    In "quantity"%string paths.
Proof.
  intros C H F Hq.
  destruct (validateItem_no_quantity (ItemSchema._id it)
              (castString (js_or (name (body req))
                                 (VStr (ItemSchema.name it))))
              (castNumber (quantity (body req)))
              (castString (js_or (description (body req))
                                 (ItemSchema.description it)))
              (now env)) as (paths & E & Hin).
  { destruct Hq as [-> | ->]; reflexivity. }
  exists paths. split; [|exact Hin].
  apply (updateItem_invalid env req db oid it _ C F H).
  unfold assign. destruct Hq as [Q|Q]; rewrite Q in *; exact E.
Qed.

Lemma update_needs_a_number_witness :
  exists paths,
    @updateItem Ref.platform Ref.env1 Demo.broken Ref.db1 =
      (mkResponse 500 (JError "Server error" (ValidationError "Item" paths)),
       Ref.db1) /\
    In "quantity"%string paths.
Proof.
  apply (@update_needs_a_number Ref.platform Ref.env1 Demo.broken Ref.db1
           1%N Ref.widget); try reflexivity.
  now left.
Defined.


(** * Properties of the client *)

Section ClientFacts.
Context {P : Platform}.

Lemma route_passes op env req db a :
  passes env a -> authorization req = App.authorization a ->
  exists claims,
    route op env req db =
      handler op env
        (mkRequest (authorization req) (params_id req) (body req)
                   (Some claims)) db.
Proof.
  intros (token & claims & B & V) Ha. exists claims. unfold route.
  rewrite (gate_accepted env req token claims); [reflexivity| |exact V].
  now rewrite Ha.
Qed.

Lemma resolved_succeeded r : succeeded r = true -> resolved r = true.
Proof.
  unfold succeeded, resolved. intros H. apply orb_true_iff in H as [H|H];
    apply Z.eqb_eq in H; now rewrite H.
Qed.

Lemma fetchItems_passes env d a db :
  passes env a -> fault env = None ->
  InventoryDashboard.fetchItems env d a db =
    (InventoryDashboard.mk (items db) false ""
       (InventoryDashboard.name d) (InventoryDashboard.quantity d)
       (InventoryDashboard.description d) (InventoryDashboard.editingItem d),
     db).
Proof.
  intros Hp F. unfold InventoryDashboard.fetchItems.
  destruct (route_passes ListItems env
              (mkRequest (App.authorization a) ""
                         (mkItemBody VUndefined VUndefined VUndefined) None)
              db a Hp eq_refl) as (claims & ->).
  simpl. now rewrite (listItems_up env _ db F).
Qed.

Lemma fetchItems_unsigned env d a db :
  bearer (App.authorization a) = None ->
  InventoryDashboard.fetchItems env d a db =
    (InventoryDashboard.mk (InventoryDashboard.items d) false
       "Failed to fetch items. Please check your connection or token."
       (InventoryDashboard.name d) (InventoryDashboard.quantity d)
       (InventoryDashboard.description d) (InventoryDashboard.editingItem d),
     db).
Proof.
  intros B. unfold InventoryDashboard.fetchItems, route.
  now rewrite gate_no_token.
Qed.
End ClientFacts.

Lemma handleSetToken_given (t : string) (a : App.state) :
  t <> ""%string ->
  App.handleSetToken (Some t) a =
    App.mk (Some t) (Some t) (Some ("Bearer " ++ t)).
Proof.
  intros Hne. unfold App.handleSetToken. simpl.
  now rewrite (eqb_empty_false t Hne).
Qed.

(** X16.  The header [handleSetToken] builds and the gate's reading of it
    are inverse to each other: for a non-empty token without spaces, the
    gate extracts from the stored Authorization header exactly the token
    that was set, the token is kept in [localStorage] and the dashboard is
    shown; after [handleLogout] there is no header, nothing in
    [localStorage], and the login page is shown. *)
Theorem token_header_round_trip (t : string) (a : App.state) :
  t <> ""%string ->
  lacks space t = true ->
  bearer (App.authorization (App.handleSetToken (Some t) a)) = Some t /\
  App.stored (App.handleSetToken (Some t) a) = Some t /\
  App.showsDashboard (App.handleSetToken (Some t) a) = true /\
  App.handleLogout (App.handleSetToken (Some t) a) = App.mk None None None /\
  bearer (App.authorization
            (App.handleLogout (App.handleSetToken (Some t) a))) = None.
Proof.
  intros Hne Hs. rewrite (handleSetToken_given t a Hne).
  unfold App.handleLogout, App.showsDashboard. simpl.
  rewrite (eqb_empty_false t Hne). repeat split.
  now apply (bearer_two_words "Bearer").
Qed.

Lemma token_header_round_trip_witness :
  bearer (App.authorization
            (App.handleSetToken (Some (Ref.aliceToken 0)) (App.load None))) =
    Some (Ref.aliceToken 0).
Proof.
  apply (token_header_round_trip (Ref.aliceToken 0) (App.load None));
    [discriminate|reflexivity].
Defined.

(** X17.  A page load restores the token from [localStorage] but not the
    Authorization header: whatever token is stored, the dashboard is shown
    as soon as the token is non-empty, its first fetch goes out without a
    header, is answered 401, and the dashboard shows the fetch error with
    the list unchanged. *)
Theorem reload_loses_the_header
    {P : Platform} (t : string) (env : Env)
    (d : InventoryDashboard.state) (db : Db) :
  t <> ""%string ->
  App.showsDashboard (App.load (Some t)) = true /\
  route ListItems env
        (mkRequest (App.authorization (App.load (Some t))) ""
                   (mkItemBody VUndefined VUndefined VUndefined) None) db =
    (mkResponse 401 (JMessage "No token provided"), db) /\
  InventoryDashboard.fetchItems env d (App.load (Some t)) db =
    (InventoryDashboard.mk (InventoryDashboard.items d) false
       "Failed to fetch items. Please check your connection or token."
       (InventoryDashboard.name d) (InventoryDashboard.quantity d)
       (InventoryDashboard.description d) (InventoryDashboard.editingItem d),
     db).
Proof.
  intros Hne. split; [|split].
  - unfold App.showsDashboard. simpl. now rewrite (eqb_empty_false t Hne).
  - unfold route. now rewrite gate_no_token.
  - now apply fetchItems_unsigned.
Qed.

Lemma reload_loses_the_header_witness :
  @InventoryDashboard.fetchItems Ref.platform Ref.env1
    InventoryDashboard.initial (App.load (Some (Ref.aliceToken 0))) Ref.db1 =
    (InventoryDashboard.mk [] false
       "Failed to fetch items. Please check your connection or token."
       "" (VStr "") (VStr "") None,
     Ref.db1).
Proof.
  apply (@reload_loses_the_header Ref.platform (Ref.aliceToken 0) Ref.env1
           InventoryDashboard.initial Ref.db1).
  discriminate.
Defined.

(** X18.  Logging in through the login page takes the user to a working
    dashboard: with the right password for a stored user, [handleSubmit]
    shows no error, stores the token and its header, leaves the store
    alone, and a fetch made before the token's hour is over lists exactly
    the items of the store.  (Token non-empty and without spaces, as a
    JWT is.) *)
Theorem ui_login_then_fetch
    {P : Platform} (env env' : Env) (p : LoginPage.state) (a : App.state)
    (d : InventoryDashboard.state) (db : Db) (u : UserSchema.doc) :
  jwt_sound P ->
  LoginPage.isLogin p = true ->
  userOf db (LoginPage.username p) = Some u ->
  bcrypt_compare (LoginPage.password p) (UserSchema.password u) = true ->
  jwt_sign (mkPayload (UserSchema._id u) (UserSchema.username u))
           JWT_SECRET expiresIn (clock env) <> ""%string ->
  lacks space (jwt_sign (mkPayload (UserSchema._id u) (UserSchema.username u))
                        JWT_SECRET expiresIn (clock env)) = true ->
  fault env = None ->
  fault env' = None ->
  clock env' < clock env + expiresIn ->
  exists a',
    LoginPage.handleSubmit env p a db =
      (LoginPage.mk true (LoginPage.username p) (LoginPage.password p) "" "",
       a', db) /\
    App.showsDashboard a' = true /\
    App.stored a' = App.token a' /\
    InventoryDashboard.fetchItems env' d a' db =
      (InventoryDashboard.mk (items db) false ""
         (InventoryDashboard.name d) (InventoryDashboard.quantity d)
         (InventoryDashboard.description d)
         (InventoryDashboard.editingItem d),
       db).
Proof.
  intros J Hl Hu Hc Hne Hs F F' Ht.
  set (t := jwt_sign (mkPayload (UserSchema._id u) (UserSchema.username u))
                     JWT_SECRET expiresIn (clock env)) in *.
  exists (App.handleSetToken (Some t) a).
  split; [|rewrite (handleSetToken_given t a Hne); split; [|split]].
  - unfold LoginPage.handleSubmit. rewrite Hl.
    rewrite (login_right env
               (mkAuthBody (LoginPage.username p)
                           (VStr (LoginPage.password p)))
               db u (LoginPage.password p) F Hu eq_refl Hc).
    reflexivity.
  - unfold App.showsDashboard. simpl. now rewrite (eqb_empty_false t Hne).
  - reflexivity.
  - apply fetchItems_passes; [|exact F'].
    exists t, (mkClaims (mkPayload (UserSchema._id u) (UserSchema.username u))
                        (clock env) (clock env + expiresIn)).
    split; [now apply (bearer_two_words "Bearer")|]. unfold t. rewrite J.
    destruct (Z.ltb_spec (clock env') (clock env + expiresIn));
      [reflexivity|lia].
Qed.

Lemma ui_login_then_fetch_witness :
  exists a',
    @LoginPage.handleSubmit Ref.platform Demo.dawn Demo.aliceForm
      (App.load None) Ref.db1 =
      (LoginPage.mk true "alice" "wonderland" "" "", a', Ref.db1) /\
    @InventoryDashboard.fetchItems Ref.platform Ref.env1
      InventoryDashboard.initial a' Ref.db1 =
      (Demo.listing, Ref.db1).
Proof.
  destruct (@ui_login_then_fetch Ref.platform Demo.dawn Ref.env1
              Demo.aliceForm (App.load None) InventoryDashboard.initial
              Ref.db1 Ref.alice ref_jwt_sound)
    as (a' & H & _ & _ & Hf); try reflexivity; try discriminate.
  exists a'. split; [exact H|exact Hf].
Defined.

Section SubmitFacts.
Context {P : Platform}.

Lemma login_shown env b db fb :
  resolved (fst (login env b db)) = true \/
  (resolved (fst (login env b db)) = false /\
   In (shown (json (fst (login env b db))) fb)
      ["Invalid credentials"; "Server error"]%string).
Proof.
  unfold login, loginBody, bind.
  destruct (User.findOne env db (username b)) as [e|[u|]]; simpl; auto.
  destruct (compare (password b) (UserSchema.password u)) as [e|[|]];
    simpl; auto.
Qed.

Lemma register_shown env b db fb :
  resolved (fst (register env b db)) = true \/
  (resolved (fst (register env b db)) = false /\
   In (shown (json (fst (register env b db))) fb)
      ["User already exists"; "Server error"]%string).
Proof.
  unfold register, registerBody, bind.
  destruct (User.findOne env db (username b)) as [e|[u|]]; simpl; auto.
  destruct (hash (password b) (salt env)) as [e|h]; simpl; auto.
  destruct (User.save env db _ _) as [e|[x db']]; simpl; auto.
Qed.

End SubmitFacts.

Lemma submit_answered
    {P : Platform} (env : Env) (p : LoginPage.state) (a : App.state)
    (db : Db) :
  LoginPage.error (fst (fst (LoginPage.handleSubmit env p a db))) =
    ""%string \/
  (snd (fst (LoginPage.handleSubmit env p a db)) = a /\
   LoginPage.isLogin (fst (fst (LoginPage.handleSubmit env p a db))) =
     LoginPage.isLogin p /\
   In (LoginPage.error (fst (fst (LoginPage.handleSubmit env p a db))))
      (if LoginPage.isLogin p
       then ["Invalid credentials"; "Server error"]
       else ["User already exists"; "Server error"])%string).
Proof.
  unfold LoginPage.handleSubmit.
  destruct (LoginPage.isLogin p) eqn:Hl.
  - destruct (login_shown env
                (mkAuthBody (LoginPage.username p)
                            (VStr (LoginPage.password p)))
                db "An error occurred.") as [R|[R I]];
      rewrite R; simpl; auto.
  - destruct (register_shown env
                (mkAuthBody (LoginPage.username p)
                            (VStr (LoginPage.password p)))
                db "An error occurred.") as [R|[R I]];
      rewrite R; simpl; auto.
Qed.

(** X19.  What the login page shows after a submit.  When the server's
    answer arrives, either the call went through and no error is shown, or
    the error is the server's own message: "Invalid credentials" or
    "Server error" in login mode, "User already exists" or "Server error"
    in register mode.  When no answer arrives, the page shows the fallback
    "An error occurred."; and the fallback shows in no other case.  A
    rejected submit leaves the token, the header and the mode as they
    were, and a registration never logs the user in. *)
Theorem login_page_error_shown
    {P : Platform} (net : Delivery) (env : Env) (p : LoginPage.state)
    (a : App.state) (db : Db) :
  (net = Answered ->
   LoginPage.error (fst (fst (handleSubmitOver net env p a db))) =
     ""%string \/
   (snd (fst (handleSubmitOver net env p a db)) = a /\
    LoginPage.isLogin (fst (fst (handleSubmitOver net env p a db))) =
      LoginPage.isLogin p /\
    In (LoginPage.error (fst (fst (handleSubmitOver net env p a db))))
       (if LoginPage.isLogin p
        then ["Invalid credentials"; "Server error"]
        else ["User already exists"; "Server error"])%string)) /\
  (net <> Answered ->
   fst (handleSubmitOver net env p a db) =
     (LoginPage.mk (LoginPage.isLogin p) (LoginPage.username p)
                   (LoginPage.password p) "An error occurred." "",
      a)) /\
  (LoginPage.error (fst (fst (handleSubmitOver net env p a db))) =
     "An error occurred."%string <->
   net <> Answered) /\
  (LoginPage.isLogin p = false ->
   snd (fst (handleSubmitOver net env p a db)) = a).
Proof.
  pose proof (submit_answered env p a db) as A.
  destruct net; simpl.
  - split; [intros _; exact A|].
    split; [intros H; now elim H|]. split; [split|].
    + intros E. exfalso. destruct A as [A|(_ & _ & A)].
      * rewrite A in E. discriminate.
      * rewrite E in A.
        destruct (LoginPage.isLogin p); simpl in A;
          destruct A as [A|[A|[]]]; discriminate.
    + intros H. now elim H.
    + intros Hl. unfold LoginPage.handleSubmit. rewrite Hl.
      now destruct (resolved _).
  - split; [discriminate|]. split; [reflexivity|].
    split; [split; [discriminate|reflexivity]|reflexivity].
  - split; [discriminate|]. split; [reflexivity|].
    split; [split; [discriminate|reflexivity]|reflexivity].
Qed.

Lemma login_page_error_shown_witness :
  fst (@handleSubmitOver Ref.platform Unsent Ref.env1 Demo.aliceForm
         (App.load None) Ref.db1) =
    (LoginPage.mk true "alice" "wonderland" "An error occurred." "",
     App.load None) /\
  LoginPage.error
    (fst (fst (@handleSubmitOver Ref.platform Answered Ref.env1
                 Demo.aliceSlip (App.load None) Ref.db1))) =
    "Invalid credentials"%string /\
  snd (fst (@handleSubmitOver Ref.platform Answered Ref.env1 Demo.newcomer
              (App.load None) Ref.db1)) = App.load None.
Proof.
  split; [|split].
  - apply (proj1 (proj2 (@login_page_error_shown Ref.platform Unsent
                           Ref.env1 Demo.aliceForm (App.load None) Ref.db1))).
    discriminate.
  - destruct (proj1 (@login_page_error_shown Ref.platform Answered
                       Ref.env1 Demo.aliceSlip (App.load None) Ref.db1)
                eq_refl) as [E|(_ & _ & E)].
    + discriminate E.
    + reflexivity.
  - apply (proj2 (proj2 (proj2 (@login_page_error_shown Ref.platform
                                  Answered Ref.env1 Demo.newcomer
                                  (App.load None) Ref.db1)))).
    reflexivity.
Defined.

Section FormFacts.
Context {P : Platform}.
Variable toHexString : ObjectId -> string.

Lemma handler_update_is env a id b u db :
  handler UpdateItem env (mkRequest a id b u) db =
  updateItem env (mkRequest None id b None) db.
Proof. reflexivity. Qed.

Lemma handler_create_is env a id b u db :
  handler CreateItem env (mkRequest a id b u) db =
  createItem env (mkRequest None id b None) db.
Proof. reflexivity. Qed.

Lemma handler_delete_is env a id b u db :
  handler DeleteItem env (mkRequest a id b u) db =
  deleteItem env (mkRequest None id b None) db.
Proof. reflexivity. Qed.
End FormFacts.

(** X20.  Edit, then save without touching the form: [handleEdit] copies
    the item into the form, and submitting it as it stands sends the item
    back to itself; the stored item keeps its name, quantity and
    description, an absent or null description included, and only
    [lastUpdated] moves to the time of the update.  The form is then
    reset and the list shows the store.  (Signed in, store answering, the
    item's id printing to a string that casts back to it.) *)
Theorem edit_then_save_changes_nothing
    {P : Platform} (toHexString : ObjectId -> string)
    (env env' : Env) (d : InventoryDashboard.state) (a : App.state)
    (db : Db) (it : ItemSchema.doc) :
  passes env a ->
  passes env' a ->
  fault env = None ->
  fault env' = None ->
  castObjectId (toHexString (ItemSchema._id it)) = Some (ItemSchema._id it) ->
  itemOf db (ItemSchema._id it) = Some it ->
  valid_item it ->
  exists l,
    Item.replaceOne
      (ItemSchema.mk (ItemSchema._id it) (ItemSchema.name it)
                     (ItemSchema.quantity it) (ItemSchema.description it)
                     (now env))
      (items db) = Some l /\
    InventoryDashboard.handleFormSubmit toHexString env env'
      (InventoryDashboard.handleEdit it d) a db =
      (InventoryDashboard.mk l false "" "" (VStr "") (VStr "") None,
       mkDb (users db) l).
Proof.
  intros Hp Hp' F F' C H V.
  set (it' := ItemSchema.mk (ItemSchema._id it) (ItemSchema.name it)
                (ItemSchema.quantity it) (ItemSchema.description it)
                (now env)).
  set (b := mkItemBody (VStr (ItemSchema.name it))
                       (VNum (ItemSchema.quantity it))
                       (ItemSchema.description it)).
  set (req := mkRequest None (toHexString (ItemSchema._id it)) b None).
  assert (A : assign env (body req) it = inr it').
  { destruct V as [Hn Ht]. unfold assign, js_or. simpl.
    rewrite (eqb_empty_false _ Hn). simpl.
    replace (if truthy (ItemSchema.description it)
             then ItemSchema.description it
             else ItemSchema.description it)
      with (ItemSchema.description it)
      by now destruct (truthy (ItemSchema.description it)).
    rewrite (castString_stable _ Ht). now apply validateItem_ok. }
  destruct (updateItem_saved env req db _ it it' C F H A) as (l & R & E).
  exists l. split; [exact R|].
  unfold InventoryDashboard.handleFormSubmit, InventoryDashboard.handleEdit.
  cbn [InventoryDashboard.editingItem InventoryDashboard.name
       InventoryDashboard.quantity InventoryDashboard.description
       InventoryDashboard.Number jsonNumber].
  fold b.
  destruct (route_passes UpdateItem env
              (mkRequest (App.authorization a)
                         (toHexString (ItemSchema._id it)) b None)
              db a Hp eq_refl) as (claims & ->).
  simpl params_id. simpl body. simpl authorization.
  rewrite handler_update_is. fold req. rewrite E.
  cbn [fst snd resolved status]. simpl Z.leb. simpl Z.ltb. simpl andb.
  now rewrite (fetchItems_passes env' _ a _ Hp' F').
Qed.

Lemma edit_then_save_changes_nothing_witness :
  @InventoryDashboard.handleFormSubmit Ref.platform Demo.toHexString
    Ref.env1 Ref.env1
    (InventoryDashboard.handleEdit Ref.gadget Demo.listing)
    Demo.aliceApp Ref.db1 =
    (InventoryDashboard.mk
       [Ref.widget; ItemSchema.mk 2 "Gadget" 7 VUndefined 5000]
       false "" "" (VStr "") (VStr "") None,
     mkDb [Ref.alice]
          [Ref.widget; ItemSchema.mk 2 "Gadget" 7 VUndefined 5000]).
Proof.
  destruct (@edit_then_save_changes_nothing Ref.platform Demo.toHexString
              Ref.env1 Ref.env1 Demo.listing Demo.aliceApp Ref.db1 Ref.gadget)
    as (l & R & E).
  - exists (Ref.aliceToken 0), Ref.aliceClaims. now split.
  - exists (Ref.aliceToken 0), Ref.aliceClaims. now split.
  - reflexivity.
  - reflexivity.
  - reflexivity.
  - reflexivity.
  - split; [discriminate|reflexivity].
  - injection R as <-. exact E.
Defined.

(** X21.  Deleting from the dashboard: a declined confirmation sends
    nothing and changes nothing; a confirmed delete of a stored item
    removes it from the store and the list then shows what is left, the
    form being left as it was. *)
Theorem dashboard_delete
    {P : Platform} (toHexString : ObjectId -> string)
    (env env' : Env) (d : InventoryDashboard.state) (a : App.state)
    (db : Db) (it : ItemSchema.doc) :
  passes env a ->
  passes env' a ->
  fault env = None ->
  fault env' = None ->
  castObjectId (toHexString (ItemSchema._id it)) = Some (ItemSchema._id it) ->
  itemOf db (ItemSchema._id it) = Some it ->
  InventoryDashboard.handleDelete toHexString false env env'
    (ItemSchema._id it) d a db = (d, db) /\
  InventoryDashboard.handleDelete toHexString true env env'
    (ItemSchema._id it) d a db =
    (InventoryDashboard.mk
       (Item.removeOne (ItemSchema._id it) (items db)) false ""
       (InventoryDashboard.name d) (InventoryDashboard.quantity d)
       (InventoryDashboard.description d) (InventoryDashboard.editingItem d),
     mkDb (users db) (Item.removeOne (ItemSchema._id it) (items db))).
Proof.
  intros Hp Hp' F F' C H. split; [reflexivity|].
  unfold InventoryDashboard.handleDelete.
  destruct (route_passes DeleteItem env
              (mkRequest (App.authorization a)
                         (toHexString (ItemSchema._id it))
                         (mkItemBody VUndefined VUndefined VUndefined) None)
              db a Hp eq_refl) as (claims & ->).
  simpl params_id. simpl body. simpl authorization.
  rewrite handler_delete_is.
  rewrite (deleteItem_removed env
             (mkRequest None (toHexString (ItemSchema._id it))
                (mkItemBody VUndefined VUndefined VUndefined) None)
             db (ItemSchema._id it) it C F H).
  cbn [fst snd resolved status]. simpl Z.leb. simpl Z.ltb. simpl andb.
  now rewrite (fetchItems_passes env' _ a _ Hp' F').
Qed.

Lemma dashboard_delete_witness :
  @InventoryDashboard.handleDelete Ref.platform Demo.toHexString true
    Ref.env1 Ref.env1 1%N Demo.listing Demo.aliceApp Ref.db1 =
    (InventoryDashboard.mk [Ref.gadget] false "" "" (VStr "") (VStr "") None,
     mkDb [Ref.alice] [Ref.gadget]).
Proof.
  apply (@dashboard_delete Ref.platform Demo.toHexString Ref.env1 Ref.env1
           Demo.listing Demo.aliceApp Ref.db1 Ref.widget); try reflexivity.
  - exists (Ref.aliceToken 0), Ref.aliceClaims. now split.
  - exists (Ref.aliceToken 0), Ref.aliceClaims. now split.
Defined.

(** X22.  Adding from the dashboard: with a non-empty name and a quantity
    field that [Number] reads as a number, the submit creates the item
    with that number as its quantity, resets the form, and the list then
    shows the store with the new item last.  An empty description field is
    stored as the empty string. *)
Theorem dashboard_add
    {P : Platform} (toHexString : ObjectId -> string)
    (env env' : Env) (d : InventoryDashboard.state) (a : App.state)
    (db : Db) (qs : string) (q : Z) :
  passes env a ->
  passes env' a ->
  fault env = None ->
  fault env' = None ->
  InventoryDashboard.editingItem d = None ->
  InventoryDashboard.name d <> ""%string ->
  InventoryDashboard.quantity d = VStr qs ->
  stringToNumber qs = Some q ->
  ~ In (new_id env) (map ItemSchema._id (items db)) ->
  InventoryDashboard.handleFormSubmit toHexString env env' d a db =
    (InventoryDashboard.mk
       (items db ++
        [ItemSchema.mk (new_id env) (InventoryDashboard.name d) q
           (castString (InventoryDashboard.description d)) (now env)])
       false "" "" (VStr "") (VStr "") None,
     mkDb (users db)
          (items db ++
           [ItemSchema.mk (new_id env) (InventoryDashboard.name d) q
              (castString (InventoryDashboard.description d)) (now env)])).
Proof.
  intros Hp Hp' F F' He Hn Hq Hs Hid.
  unfold InventoryDashboard.handleFormSubmit. rewrite He, Hq.
  cbn [InventoryDashboard.Number]. rewrite Hs. cbn [jsonNumber].
  destruct (route_passes CreateItem env
              (mkRequest (App.authorization a) ""
                 (mkItemBody (VStr (InventoryDashboard.name d)) (VNum q)
                             (InventoryDashboard.description d)) None)
              db a Hp eq_refl) as (claims & ->).
  simpl params_id. simpl body. simpl authorization.
  rewrite handler_create_is.
  rewrite (createItem_saved env
             (mkRequest None ""
                (mkItemBody (VStr (InventoryDashboard.name d)) (VNum q)
                            (InventoryDashboard.description d)) None)
             db
             (ItemSchema.mk (new_id env) (InventoryDashboard.name d) q
                (castString (InventoryDashboard.description d)) (now env)));
    trivial.
  - cbn [fst snd resolved status]. simpl Z.leb. simpl Z.ltb. simpl andb.
    now rewrite (fetchItems_passes env' _ a _ Hp' F').
  - unfold Item.create. simpl. now apply validateItem_ok.
Qed.

Lemma dashboard_add_witness :
  @InventoryDashboard.handleFormSubmit Ref.platform Demo.toHexString
    Ref.env1 Ref.env1 Demo.typed Demo.aliceApp Ref.db1 =
    (InventoryDashboard.mk
       [Ref.widget; Ref.gadget; ItemSchema.mk 3 "Gizmo" 12 (VStr "") 5000]
       false "" "" (VStr "") (VStr "") None,
     mkDb [Ref.alice]
          [Ref.widget; Ref.gadget;
           ItemSchema.mk 3 "Gizmo" 12 (VStr "") 5000]).
Proof.
  apply (@dashboard_add Ref.platform Demo.toHexString Ref.env1 Ref.env1
           Demo.typed Demo.aliceApp Ref.db1 "12"%string 12);
    try reflexivity; try discriminate.
  - exists (Ref.aliceToken 0), Ref.aliceClaims. now split.
  - exists (Ref.aliceToken 0), Ref.aliceClaims. now split.
  - simpl. intros [H|[H|[]]]; discriminate.
Defined.

(** X23.  A quantity field that [Number] reads as NaN goes out as JSON
    [null], which the schema default does not fill: adding such an item is
    refused with 500, the dashboard shows "Server error", keeps the form
    as typed, and the store is unchanged. *)
Theorem dashboard_add_without_a_number
    {P : Platform} (toHexString : ObjectId -> string)
    (env env' : Env) (d : InventoryDashboard.state) (a : App.state)
    (db : Db) (qs : string) :
  passes env a ->
  InventoryDashboard.editingItem d = None ->
  InventoryDashboard.quantity d = VStr qs ->
  stringToNumber qs = None ->
  InventoryDashboard.handleFormSubmit toHexString env env' d a db =
    (InventoryDashboard.setError "Server error" d, db).
Proof.
  intros Hp He Hq Hs.
  unfold InventoryDashboard.handleFormSubmit. rewrite He, Hq.
  cbn [InventoryDashboard.Number]. rewrite Hs. cbn [jsonNumber].
  destruct (route_passes CreateItem env
              (mkRequest (App.authorization a) ""
                 (mkItemBody (VStr (InventoryDashboard.name d)) VNull
                             (InventoryDashboard.description d)) None)
              db a Hp eq_refl) as (claims & ->).
  simpl params_id. simpl body. simpl authorization.
  rewrite handler_create_is.
  destruct (validateItem_no_quantity (new_id env)
              (castString (VStr (InventoryDashboard.name d)))
              (withDefault (VNum 0) (castNumber VNull))
              (castString (InventoryDashboard.description d)) (now env))
    as (paths & E & _); [reflexivity|].
  rewrite (createItem_invalid env
             (mkRequest None ""
                (mkItemBody (VStr (InventoryDashboard.name d)) VNull
                            (InventoryDashboard.description d)) None)
             db (ValidationError "Item" paths));
    [reflexivity|exact E].
Qed.

Lemma dashboard_add_without_a_number_witness :
  @InventoryDashboard.handleFormSubmit Ref.platform Demo.toHexString
    Ref.env1 Ref.env1 Demo.mistyped Demo.aliceApp Ref.db1 =
    (InventoryDashboard.setError "Server error" Demo.mistyped, Ref.db1).
Proof.
  apply (@dashboard_add_without_a_number Ref.platform Demo.toHexString
           Ref.env1 Ref.env1 Demo.mistyped Demo.aliceApp Ref.db1
           "a dozen"%string); try reflexivity.
  exists (Ref.aliceToken 0), Ref.aliceClaims. now split.
Defined.
